(** * ECE346 Lab 1: the ILQR planner and its real-time trajectory planner

    A shallow embedding of
      - [ROS_Core/src/Labs/Lab1/scripts/ILQR/ilqr.py]   (class [ILQR])
      - [ROS_Core/src/Labs/Lab1/scripts/traj_planner.py] (class [TrajectoryPlanner])
    and the properties of the design document that concern them.

    Conventions of the embedding.
      - A Python float is a rational number ([Q], kept in lowest terms);
        rounding is not modelled.  [np.pi] is the rational value of the
        IEEE double that numpy uses.
      - A numpy array is a shape and its elements in row-major order.
      - A Python exception is an outcome [Raise e]; a loop that may not
        terminate is run with fuel and may answer [OutOfFuel].
      - Code of other modules (dynamics, cost, reference path, collision
        checker) enters as records of the methods called on it; the
        clock, the eigenvalue test on large matrices and the optimizer
        as the planning thread calls it are Section variables. *)

From Stdlib Require Import String Bool List ZArith QArith Qround Qabs Lia Lqa.
Import ListNotations.

Set Implicit Arguments.

(** ** Outcomes of Python code *)

Inductive exn : Type :=
| NameError
| UnboundLocalError
| TypeError
| ValueError
| IndexError
| KeyError
| AttributeError
| AssertionError
| LinAlgError.

Inductive result (A : Type) : Type :=
| Ok (a : A)
| Raise (e : exn)
| OutOfFuel.

Arguments Ok {A} a.
Arguments Raise {A} e.
Arguments OutOfFuel {A}.

Definition bind {A B : Type} (r : result A) (k : A -> result B) : result B :=
  match r with
  | Ok a => k a
  | Raise e => Raise e
  | OutOfFuel => OutOfFuel
  end.

Declare Scope py_scope.
Delimit Scope py_scope with py.
Notation "x <- c ;; k" := (bind c (fun x => k))
  (at level 61, c at next level, right associativity) : py_scope.
Notation "' pat <- c ;; k" := (bind c (fun x => match x with pat => k end))
  (at level 61, pat pattern, c at next level, right associativity) : py_scope.
Open Scope py_scope.

Definition returns {A : Type} (r : result A) : bool :=
  match r with Ok _ => true | _ => false end.

(** [while cond: body]; fuel is spent on entering the body only. *)
Fixpoint while {S : Type} (fuel : nat) (cond : S -> bool)
    (body : S -> result S) (s : S) : result S :=
  if cond s then
    match fuel with
    | O => OutOfFuel
    | Datatypes.S fuel' => s' <- body s ;; while fuel' cond body s'
    end
  else Ok s.

(** A name that is bound nowhere, and a call that leaves a required
    parameter without an argument or names a keyword the callee lacks. *)
Definition unbound_name {A : Type} (name : string) : result A :=
  Raise NameError.
Definition bad_call {A : Type} (callee problem : string) : result A :=
  Raise TypeError.

(** ** Methods: code that reads and writes an object and its surroundings *)

Definition M (S A : Type) : Type := S -> result A * S.

Definition ret {S A : Type} (a : A) : M S A := fun s => (Ok a, s).
Definition lift {S A : Type} (r : result A) : M S A := fun s => (r, s).
Definition bindM {S A B : Type} (c : M S A) (k : A -> M S B) : M S B :=
  fun s =>
    match c s with
    | (Ok a, s') => k a s'
    | (Raise e, s') => (Raise e, s')
    | (OutOfFuel, s') => (OutOfFuel, s')
    end.
Definition get {S : Type} : M S S := fun s => (Ok s, s).
Definition modify {S : Type} (f : S -> S) : M S unit := fun s => (Ok tt, f s).

Fixpoint whileM {S St : Type} (fuel : nat) (cond : St -> bool)
    (body : St -> M S St) (s : St) : M S St :=
  if cond s then
    match fuel with
    | O => lift OutOfFuel
    | Datatypes.S fuel' =>
        bindM (body s) (fun s' => whileM fuel' cond body s')
    end
  else ret s.

(** [for x in l: body] *)
Fixpoint for_each {S St X : Type} (l : list X) (body : X -> St -> M S St)
    (s : St) : M S St :=
  match l with
  | [] => ret s
  | x :: l' => bindM (body x s) (fun s' => for_each l' body s')
  end.

Declare Scope meth_scope.
Delimit Scope meth_scope with meth.
Notation "x <- c ;; k" := (bindM c (fun x => k))
  (at level 61, c at next level, right associativity) : meth_scope.
Notation "' pat <- c ;; k" := (bindM c (fun x => match x with pat => k end))
  (at level 61, pat pattern, c at next level, right associativity) : meth_scope.
Notation "c ;;; k" := (bindM c (fun _ => k))
  (at level 61, right associativity) : meth_scope.

(** ** The fragment of numpy the two files use *)

Module Np.

(** A float array of any rank; rank 0 stands for a Python float too. *)
Record ndarray : Type := mk { shape : list nat; data : list Q }.

Definition size (s : list nat) : nat := fold_right Nat.mul 1%nat s.
Definition ndim (a : ndarray) : nat := length (shape a).

(** [x < y] on floats *)
Definition ltb (x y : Q) : bool := negb (Qle_bool y x).

Definition scalar (x : Q) : ndarray := mk [] [Qred x].
Definition at_flat (a : ndarray) (i : nat) : Q := nth i (data a) 0.

(** [unravel s i]: the multi-index of flat position [i] in shape [s];
    [ravel s mi]: its inverse. *)
Fixpoint unravel (s : list nat) (i : nat) : list nat :=
  match s with
  | [] => []
  | d :: s' => ((i / size s') mod d)%nat :: unravel s' (i mod size s')
  end.

Fixpoint ravel (s mi : list nat) : nat :=
  match s, mi with
  | _ :: s', x :: mi' => (x * size s' + ravel s' mi')%nat
  | _, _ => 0%nat
  end.

Definition tabulate (s : list nat) (f : list nat -> Q) : ndarray :=
  mk s (map (fun i => Qred (f (unravel s i))) (seq 0 (size s))).

Definition at_index (a : ndarray) (mi : list nat) : Q :=
  at_flat a (ravel (shape a) mi).

(** An array holds as many elements as its shape says. *)
Definition well_formed (a : ndarray) : Prop :=
  length (data a) = size (shape a).

(** [np.zeros(shape)], [np.zeros_like(a)], [np.identity(n)] *)
Definition zeros (s : list nat) : ndarray := mk s (repeat 0 (size s)).
Definition zeros_like (a : ndarray) : ndarray := zeros (shape a).
Definition identity (n : nat) : ndarray :=
  tabulate [n; n]
    (fun mi => match mi with
               | [i; j] => if Nat.eqb i j then 1 else 0
               | _ => 0
               end).

(** [a.shape[k]] *)
Definition shape_at (a : ndarray) (k : nat) : result nat :=
  match nth_error (shape a) k with
  | Some d => Ok d
  | None => Raise IndexError
  end.

Definition map_arr (f : Q -> Q) (a : ndarray) : ndarray :=
  mk (shape a) (map (fun x => Qred (f x)) (data a)).

(** unary minus *)
Definition neg (a : ndarray) : ndarray := map_arr Qopp a.

(** *** Broadcasting of elementwise binary operators *)

(** Shapes are aligned at their last axis; here both are reversed. *)
Fixpoint broadcast_rev (r1 r2 : list nat) : option (list nat) :=
  match r1, r2 with
  | [], r => Some r
  | r, [] => Some r
  | a :: r1', b :: r2' =>
      match broadcast_rev r1' r2' with
      | None => None
      | Some r =>
          if Nat.eqb a b then Some (a :: r)
          else if Nat.eqb a 1 then Some (b :: r)
          else if Nat.eqb b 1 then Some (a :: r)
          else None
      end
  end.

Definition broadcast_shapes (s1 s2 : list nat) : option (list nat) :=
  option_map (@rev nat) (broadcast_rev (rev s1) (rev s2)).

(** The element of [a] that position [mi] of the broadcast result reads. *)
Definition bc_index (a : ndarray) (mi : list nat) : Q :=
  let own := skipn (length mi - ndim a) mi in
  at_index a
    (map (fun '(d, x) => if Nat.eqb d 1 then 0%nat else x)
         (combine (shape a) own)).

Definition elementwise (f : Q -> Q -> Q) (a b : ndarray) : result ndarray :=
  match broadcast_shapes (shape a) (shape b) with
  | None => Raise ValueError
  | Some s => Ok (tabulate s (fun mi => f (bc_index a mi) (bc_index b mi)))
  end.

Definition add := elementwise Qplus.
Definition sub := elementwise Qminus.
Definition mul := elementwise Qmult.

(** *** Indexing *)

Fixpoint remove_nth {A : Type} (k : nat) (l : list A) : list A :=
  match k, l with
  | _, [] => []
  | O, _ :: l' => l'
  | S k', x :: l' => x :: remove_nth k' l'
  end.

Fixpoint insert_nth {A : Type} (k : nat) (x : A) (l : list A) : list A :=
  match k, l with
  | O, _ => x :: l
  | S k', y :: l' => y :: insert_nth k' x l'
  | S _, [] => [x]
  end.

(** [a[:, ..., :, i]] with [k] leading colons: integer index on axis [k]. *)
Definition take (k i : nat) (a : ndarray) : result ndarray :=
  match nth_error (shape a) k with
  | None => Raise IndexError
  | Some d =>
      if Nat.ltb i d
      then Ok (tabulate (remove_nth k (shape a))
                 (fun mi => at_index a (insert_nth k i mi)))
      else Raise IndexError
  end.

(** An assigned value may carry extra leading axes of length one. *)
Fixpoint strip_ones (n : nat) (s : list nat) : list nat :=
  match n, s with
  | S n', 1%nat :: s' => strip_ones n' s'
  | _, _ => s
  end.

Definition assignable (v target : list nat) : bool :=
  let v' := strip_ones (length v - length target) v in
  match broadcast_shapes v' target with
  | Some s => if list_eq_dec Nat.eq_dec s target then true else false
  | None => false
  end.

(** [a[:, ..., :, i] = v] with [k] leading colons. *)
Definition put (k i : nat) (a v : ndarray) : result ndarray :=
  match nth_error (shape a) k with
  | None => Raise IndexError
  | Some d =>
      if Nat.ltb i d
      then
        if assignable (shape v) (remove_nth k (shape a))
        then Ok (tabulate (shape a)
                   (fun mi => if Nat.eqb (nth k mi 0%nat) i
                              then bc_index v (remove_nth k mi)
                              else at_index a mi))
        else Raise ValueError
      else Raise IndexError
  end.

(** [a[: stop]]: the first [stop] entries along axis 0. *)
Definition head_slice (stop : nat) (a : ndarray) : result ndarray :=
  match shape a with
  | [] => Raise IndexError
  | d :: s' =>
      let d' := Nat.min stop d in
      Ok (mk (d' :: s') (firstn (d' * size s') (data a)))
  end.

(** [a[: stop] = v] *)
Definition put_head_slice (stop : nat) (a v : ndarray) : result ndarray :=
  match shape a with
  | [] => Raise IndexError
  | d :: s' =>
      let d' := Nat.min stop d in
      if assignable (shape v) (d' :: s')
      then Ok (tabulate (shape a)
                 (fun mi => if Nat.ltb (nth 0 mi 0%nat) d'
                            then bc_index v mi
                            else at_index a mi))
      else Raise ValueError
  end.

(** [a[: -1]] *)
Definition drop_last (a : ndarray) : result ndarray :=
  match shape a with
  | [] => Raise IndexError
  | d :: _ => head_slice (d - 1) a
  end.

(** *** Linear algebra *)

(** [a.transpose()]: the axes in reverse order. *)
Definition transpose (a : ndarray) : ndarray :=
  tabulate (rev (shape a)) (fun mi => at_index a (rev mi)).

Definition sumQ (l : list Q) : Q := fold_right Qplus 0 l.

(** [a @ b] for operands of rank one and two.  A rank-0 operand is an
    error in numpy; products of stacks (rank three and more) are outside
    this fragment and reported as an error as well. *)
Definition matmul (a b : ndarray) : result ndarray :=
  match shape a, shape b with
  | [n; k], [k'; m] =>
      if Nat.eqb k k'
      then Ok (tabulate [n; m]
                 (fun mi => match mi with
                            | [i; j] => sumQ (map (fun l => at_index a [i; l] * at_index b [l; j]) (seq 0 k))
                            | _ => 0
                            end))
      else Raise ValueError
  | [n; k], [k'] =>
      if Nat.eqb k k'
      then Ok (tabulate [n]
                 (fun mi => match mi with
                            | [i] => sumQ (map (fun l => at_index a [i; l] * at_index b [l]) (seq 0 k))
                            | _ => 0
                            end))
      else Raise ValueError
  | [k], [k'; m] =>
      if Nat.eqb k k'
      then Ok (tabulate [m]
                 (fun mi => match mi with
                            | [j] => sumQ (map (fun l => at_index a [l] * at_index b [l; j]) (seq 0 k))
                            | _ => 0
                            end))
      else Raise ValueError
  | [k], [k'] =>
      if Nat.eqb k k'
      then Ok (scalar (sumQ (map (fun l => at_index a [l] * at_index b [l]) (seq 0 k))))
      else Raise ValueError
  | _, _ => Raise ValueError
  end.

(** Rows of a rank-2 array. *)
Definition rows (a : ndarray) : list (list Q) :=
  match shape a with
  | [n; m] => map (fun i => map (fun j => at_index a [i; j]) (seq 0 m)) (seq 0 n)
  | _ => []
  end.

Definition of_rows (n m : nat) (r : list (list Q)) : ndarray :=
  mk [n; m] (map Qred (concat r)).

(** Determinant by expansion along the first row; [n] is the order. *)
Fixpoint det (n : nat) (r : list (list Q)) : Q :=
  match n, r with
  | S n', r0 :: rest =>
      sumQ (map (fun j =>
                   (if Nat.even j then 1 else -(1))
                   * nth j r0 0
                   * det n' (map (remove_nth j) rest))
              (seq 0 (S n')))
  | _, _ => 1
  end.

Definition minor (i j : nat) (r : list (list Q)) : list (list Q) :=
  map (remove_nth j) (remove_nth i r).

(** [np.linalg.inv(a)] for one square matrix (stacks are outside the
    fragment): the adjugate over the determinant. *)
Definition inv (a : ndarray) : result ndarray :=
  match shape a with
  | [n; m] =>
      if Nat.eqb n m
      then
        let r := rows a in
        let d := det n r in
        if Qeq_bool d 0 then Raise LinAlgError
        else Ok (tabulate [n; n]
                   (fun mi => match mi with
                              | [i; j] =>
                                  (if Nat.even (i + j) then 1 else -(1))
                                  * det (n - 1) (minor j i r) / d
                              | _ => 0
                              end))
      else Raise LinAlgError
  | _ => Raise LinAlgError
  end.

(** [np.all(np.linalg.eigvals(a) > 0)].  In exact arithmetic the
    eigenvalues of a real 2x2 matrix are all positive (complex ones
    compared by real part first, as numpy does) exactly when its trace
    and determinant are.  For orders three and more, and for stacks of
    matrices, the answer is left to the oracle [big]. *)
Definition all_eigvals_positive (big : ndarray -> bool) (a : ndarray)
  : result bool :=
  match rev (shape a) with
  | m :: n :: batch =>
      if Nat.eqb n m
      then
        match batch, n with
        | [], 0%nat => Ok true
        | [], 1%nat => Ok (ltb 0 (at_index a [0; 0]%nat))
        | [], 2%nat =>
            let tr := at_index a [0; 0]%nat + at_index a [1; 1]%nat in
            Ok (ltb 0 tr && ltb 0 (det 2 (rows a)))
        | _, _ => Ok (big a)
        end
      else Raise LinAlgError
  | _ => Raise LinAlgError
  end.

(** [a.tranpose()]: arrays have [transpose], and no attribute of this
    name. *)
Definition tranpose (a : ndarray) : result ndarray := Raise AttributeError.

(** [np.pi]: the double 0x400921FB54442D18. *)
Definition pi : Q := 884279719003555 # 281474976710656.

(** [np.mod(a, b)] on floats: the remainder with the sign of the divisor. *)
Definition mod_ (a b : Q) : Q := a - b * inject_Z (Qfloor (a / b)).

End Np.

Abbreviation ndarray := Np.ndarray.

(** * ILQR/ilqr.py *)

Module Ilqr.

(** Line 13. *)
Definition status_lookup : list string :=
  ["Iteration Limit Exceed"; "Converged"; "Failed Line Search"]%string.

(** *** The collaborators of the class, by the methods it calls *)

Record RefPath : Type :=
  { get_reference : ndarray -> result ndarray }.

Record Obstacle : Type := { vertices : list ndarray }.

Record CollisionChecker : Type :=
  { check_collisions : ndarray -> list Obstacle -> result (list ndarray) }.

Record Bicycle5D : Type :=
  { rollout_nominal_np : ndarray -> ndarray -> result (ndarray * ndarray);
    integrate_forward_np : ndarray -> ndarray -> result (ndarray * ndarray);
    get_jacobian_np : ndarray -> ndarray -> result (ndarray * ndarray) }.

(** [q, r, Q, R, H] of [get_derivatives_np]. *)
Record derivatives : Type :=
  { d_q : ndarray; d_r : ndarray; d_Q : ndarray; d_R : ndarray; d_H : ndarray }.

Record Cost : Type :=
  { get_traj_cost :
      ndarray -> ndarray -> ndarray -> list ndarray -> result Q;
    get_derivatives_np :
      ndarray -> ndarray -> ndarray -> list ndarray -> result derivatives }.

(** *** The object: the attributes set by [__init__] and [load_parameters] *)

Record ILQR : Type :=
  { dim_x : nat;
    dim_u : nat;
    T : nat;
    dt : Q;
    max_iter : Z;
    tol : Q;
    alphas : list Q;
    reg_min : Q;
    reg_max : Q;
    reg_init : Q;
    reg_scale_up : Q;
    reg_scale_down : Q;
    max_attempt : Z;
    dyn : Bicycle5D;
    cost : Cost;
    ref_path : option RefPath;
    collision_checker : CollisionChecker;
    obstacle_list : list Obstacle }.

Definition set_ref_path (rp : option RefPath) (o : ILQR) : ILQR :=
  {| dim_x := dim_x o; dim_u := dim_u o; T := T o; dt := dt o;
     max_iter := max_iter o; tol := tol o; alphas := alphas o;
     reg_min := reg_min o; reg_max := reg_max o; reg_init := reg_init o;
     reg_scale_up := reg_scale_up o; reg_scale_down := reg_scale_down o;
     max_attempt := max_attempt o; dyn := dyn o; cost := cost o;
     ref_path := rp;
     collision_checker := collision_checker o;
     obstacle_list := obstacle_list o |}.

Definition set_obstacle_list (l : list Obstacle) (o : ILQR) : ILQR :=
  {| dim_x := dim_x o; dim_u := dim_u o; T := T o; dt := dt o;
     max_iter := max_iter o; tol := tol o; alphas := alphas o;
     reg_min := reg_min o; reg_max := reg_max o; reg_init := reg_init o;
     reg_scale_up := reg_scale_up o; reg_scale_down := reg_scale_down o;
     max_attempt := max_attempt o; dyn := dyn o; cost := cost o;
     ref_path := ref_path o;
     collision_checker := collision_checker o;
     obstacle_list := l |}.

(** The object with other values loaded for [reg_min] and [reg_max]
    (lines 68-69). *)
Definition set_reg_bounds (lo hi : Q) (o : ILQR) : ILQR :=
  {| dim_x := dim_x o; dim_u := dim_u o; T := T o; dt := dt o;
     max_iter := max_iter o; tol := tol o; alphas := alphas o;
     reg_min := lo; reg_max := hi; reg_init := reg_init o;
     reg_scale_up := reg_scale_up o; reg_scale_down := reg_scale_down o;
     max_attempt := max_attempt o; dyn := dyn o; cost := cost o;
     ref_path := ref_path o;
     collision_checker := collision_checker o;
     obstacle_list := obstacle_list o |}.

(** *** What a method call can be seen to do *)

Inductive event : Type :=
| Print (msg : string)
| Call (callee : string) (args : list ndarray)
| Time.

(** The object, the calls made so far, and the number of clock readings. *)
Record heap : Type :=
  { self : ILQR; trace : list event; ticks : nat }.

Definition emit (e : event) : M heap unit :=
  modify (fun h => {| self := self h; trace := trace h ++ [e]; ticks := ticks h |}).

Definition set_self (f : ILQR -> ILQR) : M heap unit :=
  modify (fun h => {| self := f (self h); trace := trace h; ticks := ticks h |}).

(** A call of a collaborator's method: recorded, then answered. *)
Definition call {A : Type} (callee : string) (args : list ndarray)
    (answer : result A) : M heap A :=
  (emit (Call callee args) ;;; lift answer)%meth.

(** Python values that end up in the dictionary [plan] returns. *)
Inductive pyobj : Type :=
| PyNone
| PyInt (z : Z)
| PyFloat (x : Q)
| PyArray (a : ndarray).

Definition dict : Type := list (string * pyobj).

Fixpoint getitem (d : dict) (key : string) : result pyobj :=
  match d with
  | [] => Raise KeyError
  | (k, v) :: d' => if String.eqb k key then Ok v else getitem d' key
  end.

Section Methods.

(** [time.time()]: the n-th reading of the clock. *)
Variable time_time : nat -> Q.

(** The eigenvalue test on matrices of order three and more. *)
Variable eig_big : ndarray -> bool.

Definition now : M heap Q :=
  fun h => (Ok (time_time (ticks h)),
            {| self := self h; trace := trace h ++ [Time]; ticks := S (ticks h) |}).

(** Lines 100-106. *)
Definition update_ref_path (rp : RefPath) : M heap unit :=
  set_self (set_ref_path (Some rp)).

(** Lines 108-117. *)
Definition update_obstacles (vertices_list : list (list ndarray)) : M heap unit :=
  set_self (set_obstacle_list (map (fun v => {| vertices := v |}) vertices_list)).

(** Lines 119-131.  [self.ref_path.get_reference] is looked up before
    its argument is evaluated; [trajectory[:2, :]] needs rank two. *)
Definition get_references (trajectory : ndarray)
  : M heap (ndarray * list ndarray) :=
  (h <- get ;;
   path_refs <-
     match ref_path (self h) with
     | None => lift (Raise AttributeError)
     | Some rp =>
         xy <- lift (_ <- Np.shape_at trajectory 1 ;;
                     Np.head_slice 2 trajectory)%py ;;
         call "ref_path.get_reference" [xy] (get_reference rp xy)
     end ;;
   obs_refs <-
     call "collision_checker.check_collisions" [trajectory]
       (check_collisions (collision_checker (self h)) trajectory
          (obstacle_list (self h))) ;;
   ret (path_refs, obs_refs))%meth.

(** *** [backward_pass] (lines 133-190) *)

(** The locals that the loop of [backward_pass] reads and writes;
    [Kt] and [kt] are unbound until lines 179 and 180 bind them. *)
Record bp_state : Type :=
  { l_t : Z;
    l_lam : ndarray;
    l_p : ndarray;
    l_P : ndarray;
    l_k_open_loop : ndarray;
    l_K_closed_loop : ndarray;
    l_Kt : option ndarray;
    l_kt : option ndarray }.

(** [P + lam@np.identity(P.shape[0])] *)
Definition regularized (P lam : ndarray) : result ndarray :=
  n <- Np.shape_at P 0 ;;
  lamI <- Np.matmul lam (Np.identity n) ;;
  Np.add P lamI.

(** One pass through the body of [while t >= 0] (lines 153-188). *)
Definition bp_body (o : ILQR) (d : derivatives) (A B alpha : ndarray)
    (st : bp_state) : result bp_state :=
  let t := Z.to_nat (l_t st) in
  let p := l_p st in
  let P := l_P st in
  let lam := l_lam st in
  qt <- Np.take 1 t (d_q d) ;;
  rt <- Np.take 1 t (d_r d) ;;
  Qt <- Np.take 2 t (d_Q d) ;;
  Rt <- Np.take 2 t (d_R d) ;;
  Ht <- Np.take 2 t (d_H d) ;;
  At <- Np.take 2 t A ;;
  Bt <- Np.take 2 t B ;;
  (* step 6 *)
  Qxt <- (x <- Np.matmul (Np.transpose At) p ;; Np.add qt x) ;;
  Qut <- (x <- Np.matmul (Np.transpose Bt) p ;; Np.add rt x) ;;
  Qxxt <- (x <- Np.matmul (Np.transpose At) P ;;
           y <- Np.matmul x At ;; Np.add Qt y) ;;
  Quut <- (x <- Np.matmul (Np.transpose Bt) P ;;
           y <- Np.matmul x Bt ;; Np.add Rt y) ;;
  Quxt <- (x <- Np.matmul (Np.transpose Bt) P ;;
           y <- Np.matmul x At ;; Np.add Ht y) ;;
  (* step 7 *)
  Quu_reg <- (Pr <- regularized P lam ;;
              x <- Np.matmul (Np.transpose Bt) Pr ;;
              y <- Np.matmul x Bt ;; Np.add Rt y) ;;
  Qux_reg <- (Pr <- regularized P lam ;;
              x <- Np.matmul (Np.transpose Bt) Pr ;;
              y <- Np.matmul x At ;; Np.add Ht y) ;;
  (* step 8 *)
  pd <- Np.all_eigvals_positive eig_big Quu_reg ;;
  if pd : bool then
    lam <- Np.mul alpha lam ;;
    Ok {| l_t := Z.of_nat (T o) - 1; l_lam := lam; l_p := p; l_P := P;
          l_k_open_loop := l_k_open_loop st;
          l_K_closed_loop := l_K_closed_loop st;
          l_Kt := l_Kt st; l_kt := l_kt st |}
  else
    Kt <- (x <- Np.inv Quu_reg ;; Np.matmul (Np.neg x) Qux_reg) ;;
    kt <- (x <- Np.inv Qux_reg ;; Np.matmul (Np.neg x) Qut) ;;
    k_open_loop <- Np.put 1 t (l_k_open_loop st) kt ;;
    K_closed_loop <- Np.put 2 t (l_K_closed_loop st) Kt ;;
    p <- (x <- Np.matmul (Np.transpose Kt) Qut ;;
          s1 <- Np.add Qxt x ;;
          y <- Np.matmul (Np.transpose Kt) Quut ;;
          y <- Np.matmul y kt ;;
          s2 <- Np.add s1 y ;;
          z <- Np.matmul (Np.transpose Quxt) kt ;;
          Np.add s2 z) ;;
    P <- (KtT <- Np.tranpose Kt ;;
          x <- Np.matmul KtT Quut ;;
          x <- Np.matmul x Kt ;;
          s1 <- Np.add Qxxt x ;;
          y <- Np.matmul (Np.transpose Kt) Quxt ;;
          s2 <- Np.add s1 y ;;
          z <- Np.matmul (Np.transpose Quxt) Kt ;;
          Np.add s2 z) ;;
    Ok {| l_t := l_t st - 1; l_lam := lam; l_p := p; l_P := P;
          l_k_open_loop := k_open_loop;
          l_K_closed_loop := K_closed_loop;
          l_Kt := Some Kt; l_kt := Some kt |}.

(** The locals on entry to the loop (lines 145-150). *)
Definition bp_init (o : ILQR) (d : derivatives) (lam : ndarray)
  : result bp_state :=
  let k_open_loop := Np.zeros [2; T o]%nat in
  let K_closed_loop := Np.zeros [2; 4; T o]%nat in
  p <- Np.take 1 (T o) (d_q d) ;;
  P <- Np.take 2 (T o) (d_Q d) ;;
  Ok {| l_t := Z.of_nat (T o) - 1; l_lam := lam; l_p := p; l_P := P;
        l_k_open_loop := k_open_loop;
        l_K_closed_loop := K_closed_loop;
        l_Kt := None; l_kt := None |}.

(** Line 190, [return Kt, kt, b*lam]. *)
Definition bp_return (b : ndarray) (st : bp_state)
  : result (ndarray * ndarray * ndarray) :=
  match l_Kt st, l_kt st with
  | Some Kt, Some kt => blam <- Np.mul b (l_lam st) ;; Ok (Kt, kt, blam)
  | _, _ => Raise UnboundLocalError
  end.

Definition backward_pass (fuel : nat)
    (trajectory controls path_refs : ndarray) (obs_refs : list ndarray)
    (alpha b lam : ndarray) : M heap (ndarray * ndarray * ndarray) :=
  (h <- get ;;
   let o := self h in
   d <- call "cost.get_derivatives_np" [trajectory; controls; path_refs]
          (get_derivatives_np (cost o) trajectory controls path_refs obs_refs) ;;
   ' (A, B) <- call "dyn.get_jacobian_np" [trajectory; controls]
                 (get_jacobian_np (dyn o) trajectory controls) ;;
   lift (st <- bp_init o d lam ;;
         st <- while fuel (fun st => 0 <=? l_t st)%Z (bp_body o d A B alpha) st ;;
         bp_return b st)%py)%meth.

(** *** [forward_pass] (lines 193-222) *)

(** The body of [for t in range(self.T-1)] (lines 210-213). *)
Definition fp_step (trajectory controls K k : ndarray) (alpha : Q)
    (t : nat) (cur : ndarray * ndarray) : M heap (ndarray * ndarray) :=
  (let '(controls_new, trajectory_new) := cur in
   h <- get ;;
   ut <- lift (ct <- Np.take 1 t controls ;;
               Kt <- Np.take 2 t K ;;
               xn <- Np.take 1 t trajectory_new ;;
               xo <- Np.take 1 t trajectory ;;
               dx <- Np.sub xn xo ;;
               Kdx <- Np.matmul Kt dx ;;
               s <- Np.add ct Kdx ;;
               kt <- Np.take 1 t k ;;
               ak <- Np.mul (Np.scalar alpha) kt ;;
               Np.add s ak)%py ;;
   xn <- lift (Np.take 1 t trajectory_new) ;;
   ' (state_next, _) <- call "dyn.integrate_forward_np" [xn; ut]
                          (integrate_forward_np (dyn (self h)) xn ut) ;;
   controls_new <- lift (Np.put 1 t controls_new ut) ;;
   trajectory_new <- lift (Np.put_head_slice (t + 1) trajectory_new state_next) ;;
   ret (controls_new, trajectory_new))%meth.

(** [while alpha > rho] (lines 208-219), with its [break]. *)
Fixpoint line_search (fuel : nat) (trajectory controls : ndarray) (J : Q)
    (K k : ndarray) (rho epsilon alpha : Q) (cur : ndarray * ndarray)
    : M heap (ndarray * ndarray) :=
  if Np.ltb rho alpha then
    match fuel with
    | O => lift OutOfFuel
    | S fuel' =>
        (h <- get ;;
         cur <- for_each (seq 0 (T (self h) - 1))
                  (fp_step trajectory controls K k alpha) cur ;;
         let '(controls_new, trajectory_new) := cur in
         ' (path_refs, obs_refs) <- get_references trajectory_new ;;
         J_new <- call "cost.get_traj_cost"
                    [trajectory_new; controls_new; path_refs]
                    (get_traj_cost (cost (self h)) trajectory_new
                       controls_new path_refs obs_refs) ;;
         if Np.ltb J_new J then ret cur
         else line_search fuel' trajectory controls J K k rho epsilon
                (Qred (epsilon * alpha)) cur)%meth
    end
  else ret cur.

Definition forward_pass (fuel : nat) (trajectory controls : ndarray)
    (J : Q) (K k : ndarray) (alpha epsilon : Q)
    : M heap (ndarray * ndarray) :=
  (let trajectory_new := Np.zeros_like trajectory in
   let controls_new := Np.zeros_like controls in
   let rho := 1 # 10 in
   trajectory_new <-
     lift (v <- Np.head_slice 0 trajectory ;;
           Np.put 1 0 trajectory_new v)%py ;;
   line_search fuel trajectory controls J K k rho epsilon alpha
     (controls_new, trajectory_new))%meth.

(** *** [plan] (lines 224-344) *)

(** The body of [while J<self.tol and J>-self.tol] (lines 274-275).
    [alpha] and [epsilon] are names of neither [plan] nor the module;
    the call of line 274 passes six arguments for the seven
    parameters of [backward_pass]; line 275 unpacks what
    [forward_pass] returns as [trajectory, controls]. *)
Definition plan_body (fuel : nat) (path_refs : ndarray)
    (obs_refs : list ndarray) (J : Q)
    (cur : ndarray * ndarray * Q) : M heap (ndarray * ndarray * Q) :=
  (let '(trajectory, controls, lam) := cur in
   alpha <- lift (@unbound_name ndarray "alpha") ;;
   ' (K, k, lam) <- lift (@bad_call (ndarray * ndarray * Q)
                            "backward_pass" "lam") ;;
   alpha <- lift (@unbound_name Q "alpha") ;;
   epsilon <- lift (@unbound_name Q "epsilon") ;;
   ' (trajectory, controls) <-
       forward_pass fuel trajectory controls J K k alpha epsilon ;;
   ret (trajectory, controls, lam))%meth.

Definition plan (fuel : nat) (init_state : ndarray)
    (controls : option ndarray) : M heap dict :=
  (h <- get ;;
   let o := self h in
   match ref_path o with
   | None =>
       emit (Print "No reference path is provided.") ;;;
       ret [("status"%string, PyInt (-1))]
   | Some _ =>
       controls <-
         match controls with
         | None => ret (Np.zeros [dim_u o; T o])
         | Some c =>
             n <- lift (Np.shape_at c 1) ;;
             if Nat.eqb n (T o) then ret c else lift (Raise AssertionError)
         end ;;
       t_start <- now ;;
       ' (trajectory, controls) <-
           call "dyn.rollout_nominal_np" [init_state; controls]
             (rollout_nominal_np (dyn o) init_state controls) ;;
       ' (path_refs, obs_refs) <- get_references trajectory ;;
       J <- call "cost.get_traj_cost" [trajectory; controls; path_refs]
              (get_traj_cost (cost o) trajectory controls path_refs obs_refs) ;;
       _ <- lift (Np.shape_at controls 1) ;;
       let lam := reg_init o in
       ' (trajectory, controls, lam) <-
           whileM fuel
             (fun _ => Np.ltb J (tol o) && Np.ltb (- tol o) J)
             (plan_body fuel path_refs obs_refs J)
             (trajectory, controls, lam) ;;
       t_end <- now ;;
       ret [("t_process"%string, PyFloat (Qred (t_end - t_start)));
            ("trajectory"%string, PyArray trajectory);
            ("controls"%string, PyArray controls);
            ("status"%string, PyNone);
            ("K_closed_loop"%string, PyNone);
            ("k_open_loop"%string, PyNone)]
   end)%meth.

End Methods.

End Ilqr.

(** * traj_planner.py *)

Module Planner.

Import Ilqr.

(** *** [utils.RealtimeBuffer] *)

(** Modelled from the spec: the class [RealtimeBuffer] of [utils] is not
    among the sources.  Section 4.5 of the design document: a
    single-slot exchange; [write] replaces the stored value and sets
    the new-data flag; [read] takes the stored value and clears the
    flag; [reset] clears the stored value and the flag. *)
Record RealtimeBuffer (A : Type) : Type :=
  { stored : option A; new_data_available : bool }.

Arguments stored {A} _.
Arguments new_data_available {A} _.

Definition empty_buffer {A : Type} : RealtimeBuffer A :=
  {| stored := None; new_data_available := false |}.

Definition writeFromNonRT {A : Type} (v : A) (b : RealtimeBuffer A)
  : RealtimeBuffer A :=
  {| stored := Some v; new_data_available := true |}.

Definition readFromRT {A : Type} (b : RealtimeBuffer A)
  : option A * RealtimeBuffer A :=
  (stored b, {| stored := stored b; new_data_available := false |}).

Definition reset {A : Type} (b : RealtimeBuffer A) : RealtimeBuffer A :=
  {| stored := None; new_data_available := false |}.

(** *** [utils.Policy] and the odometry message *)

(** Modelled from the spec: the class [Policy] of [utils] is not among
    the sources.  Section 3 of the design document: an immutable bundle
    of nominal trajectory, nominal controls, gains, start time, time
    step and horizon. *)
Record Policy : Type :=
  { X : ndarray; U : pyobj; K : pyobj; t0 : Q; p_dt : Q; p_T : nat }.

(** The fields of [nav_msgs/Odometry] that the planning thread reads. *)
Record Odometry : Type := { position_x : Q; position_y : Q }.

(** *** The feedback law *)

(** Line 305, [np.mod(d + np.pi, 2 * np.pi) - np.pi], on one entry. *)
Definition wrap_heading (d : Q) : Q :=
  Np.mod_ (d + Np.pi) (2 * Np.pi) - Np.pi.

(** [compute_control] (lines 281-312).  The operands of line 305 other
    than [dx[3]] are Python floats, so the line acts entry by entry on
    [dx[3]]. *)
Definition compute_control (x x_ref u_ref K_closed_loop : ndarray)
  : result (ndarray * ndarray) :=
  dx <- Np.sub x x_ref ;;
  dx3 <- Np.take 0 3 dx ;;
  dx <- Np.put 0 3 dx (Np.map_arr wrap_heading dx3) ;;
  Kdx <- Np.matmul K_closed_loop dx ;;
  u <- Np.add u_ref Kdx ;;
  accel <- Np.take 0 0 u ;;
  steer_rate <- Np.take 0 1 u ;;
  Ok (accel, steer_rate).

(** *** The node *)

Inductive ros_event : Type :=
| LogInfo (msg : string)
| LogWarn (msg : string)
| PlanCalled (at_tick : nat)
| PlanReturned
| Published
| Slept (seconds : Q).

(** The attributes of [TrajectoryPlanner] that the callbacks and the
    receding-horizon thread use, what the node has been seen to do, and
    the number of readings of the ROS clock. *)
Record node : Type :=
  { planner_ready : bool;
    replan_dt : Q;
    planner : ILQR;
    plan_state_buffer : RealtimeBuffer ndarray;
    control_state_buffer : RealtimeBuffer Odometry;
    policy_buffer : RealtimeBuffer Policy;
    path_buffer : RealtimeBuffer RefPath;
    total_path : list RefPath;
    goal_locations : list (Z * (Q * Q));
    goal_path : list Z;
    seen : list ros_event;
    clock_ticks : nat }.

Definition with_ready (v : bool) (n : node) : node :=
  {| planner_ready := v; replan_dt := replan_dt n; planner := planner n;
     plan_state_buffer := plan_state_buffer n;
     control_state_buffer := control_state_buffer n;
     policy_buffer := policy_buffer n; path_buffer := path_buffer n;
     total_path := total_path n; goal_locations := goal_locations n;
     goal_path := goal_path n; seen := seen n;
     clock_ticks := clock_ticks n |}.

Definition with_planner (v : ILQR) (n : node) : node :=
  {| planner_ready := planner_ready n; replan_dt := replan_dt n; planner := v;
     plan_state_buffer := plan_state_buffer n;
     control_state_buffer := control_state_buffer n;
     policy_buffer := policy_buffer n; path_buffer := path_buffer n;
     total_path := total_path n; goal_locations := goal_locations n;
     goal_path := goal_path n; seen := seen n;
     clock_ticks := clock_ticks n |}.

Definition with_plan_state_buffer (v : RealtimeBuffer ndarray) (n : node) : node :=
  {| planner_ready := planner_ready n; replan_dt := replan_dt n;
     planner := planner n; plan_state_buffer := v;
     control_state_buffer := control_state_buffer n;
     policy_buffer := policy_buffer n; path_buffer := path_buffer n;
     total_path := total_path n; goal_locations := goal_locations n;
     goal_path := goal_path n; seen := seen n;
     clock_ticks := clock_ticks n |}.

Definition with_control_state_buffer (v : RealtimeBuffer Odometry) (n : node) : node :=
  {| planner_ready := planner_ready n; replan_dt := replan_dt n;
     planner := planner n; plan_state_buffer := plan_state_buffer n;
     control_state_buffer := v;
     policy_buffer := policy_buffer n; path_buffer := path_buffer n;
     total_path := total_path n; goal_locations := goal_locations n;
     goal_path := goal_path n; seen := seen n;
     clock_ticks := clock_ticks n |}.

Definition with_policy_buffer (v : RealtimeBuffer Policy) (n : node) : node :=
  {| planner_ready := planner_ready n; replan_dt := replan_dt n;
     planner := planner n; plan_state_buffer := plan_state_buffer n;
     control_state_buffer := control_state_buffer n;
     policy_buffer := v; path_buffer := path_buffer n;
     total_path := total_path n; goal_locations := goal_locations n;
     goal_path := goal_path n; seen := seen n;
     clock_ticks := clock_ticks n |}.

Definition with_path_buffer (v : RealtimeBuffer RefPath) (n : node) : node :=
  {| planner_ready := planner_ready n; replan_dt := replan_dt n;
     planner := planner n; plan_state_buffer := plan_state_buffer n;
     control_state_buffer := control_state_buffer n;
     policy_buffer := policy_buffer n; path_buffer := v;
     total_path := total_path n; goal_locations := goal_locations n;
     goal_path := goal_path n; seen := seen n;
     clock_ticks := clock_ticks n |}.

Definition with_seen (v : list ros_event) (k : nat) (n : node) : node :=
  {| planner_ready := planner_ready n; replan_dt := replan_dt n;
     planner := planner n; plan_state_buffer := plan_state_buffer n;
     control_state_buffer := control_state_buffer n;
     policy_buffer := policy_buffer n; path_buffer := path_buffer n;
     total_path := total_path n; goal_locations := goal_locations n;
     goal_path := goal_path n; seen := v; clock_ticks := k |}.

Definition note (e : ros_event) : M node unit :=
  modify (fun n => with_seen (seen n ++ [e]) (clock_ticks n) n).

(** [start_planning_cb] (lines 164-170). *)
Definition start_planning_cb : M node unit :=
  (note (LogInfo "Start planning!") ;;;
   modify (with_ready true))%meth.

(** [stop_planning_cb] (lines 172-179). *)
Definition stop_planning_cb : M node unit :=
  (note (LogInfo "Stop planning!") ;;;
   modify (with_ready false) ;;;
   modify (fun n => with_policy_buffer (reset (policy_buffer n)) n))%meth.

(** [odometry_callback] (lines 201-209). *)
Definition odometry_callback (odom_msg : Odometry) : M node unit :=
  modify (fun n => with_control_state_buffer
                     (writeFromNonRT odom_msg (control_state_buffer n)) n).

(** A read of a buffer of the node, by its getter and setter. *)
Definition read_buffer {A : Type} (get_b : node -> RealtimeBuffer A)
    (set_b : RealtimeBuffer A -> node -> node) : M node (option A) :=
  fun n => let '(v, b) := readFromRT (get_b n) in (Ok v, set_b b n).

Fixpoint lookup (d : list (Z * (Q * Q))) (key : Z) : result (Q * Q) :=
  match d with
  | [] => Raise KeyError
  | (k, v) :: d' => if Z.eqb k key then Ok v else lookup d' key
  end.

(** [if obj == 0]: for an array the comparison is made entry by entry,
    and only an array of one entry has a truth value. *)
Definition eq_zero (v : pyobj) : result bool :=
  match v with
  | PyInt z => Ok (Z.eqb z 0)
  | PyFloat x => Ok (Qeq_bool x 0)
  | PyNone => Ok false
  | PyArray a =>
      match Np.data a with
      | [x] => Ok (Qeq_bool x 0)
      | _ => Raise ValueError
      end
  end.

Section Thread.

(** [rospy.get_rostime().to_sec()]: the n-th reading of the clock. *)
Variable get_rostime : nat -> Q.

(** [policy.get_ref_controls(t)] of the missing class [Policy]. *)
Variable get_ref_controls : Policy -> Q -> result (option ndarray).

(** [self.planner.plan(current_state, initial_controls, verbose = False)]
    as the thread sees it: what it returns and what it leaves of the
    planner. *)
Variable planner_plan :
  ILQR -> ndarray -> option ndarray -> result dict * ILQR.

Definition rostime : M node Q :=
  fun n => (Ok (get_rostime (clock_ticks n)),
            with_seen (seen n) (S (clock_ticks n)) n).

(** The locals of the thread that live across passes of its loop. *)
Record locals : Type := { index : nat; t_last_replan : Q }.

(** The condition of line 545. *)
Definition replan_guard (n : node) (l : locals) : bool :=
  new_data_available (plan_state_buffer n)
  && Np.ltb (replan_dt n) (t_last_replan l)
  && planner_ready n.

(** Lines 565-573: moving on to the next leg near the current goal;
    the bare [except] swallows the missing next leg. *)
Definition next_leg (x_pos y_pos : Q) (idx : nat) : M node nat :=
  (n <- get ;;
   curr_goal <- lift match nth_error (goal_path n) idx with
                     | Some g => Ok g
                     | None => Raise IndexError
                     end ;;
   ' (gx, gy) <- lift (lookup (goal_locations n) curr_goal) ;;
   if (Np.ltb (gx - (1 # 2)) x_pos && Np.ltb x_pos (gx + (1 # 2)))
      && (Np.ltb (gy - (1 # 4)) y_pos && Np.ltb y_pos (gy + (1 # 4)))
   then
     note (LogInfo "WE ARE GETTING THE NEXT PATH") ;;;
     match nth_error (total_path n) (idx + 1) with
     | Some rp =>
         modify (fun n => with_path_buffer
                            (writeFromNonRT rp (path_buffer n)) n) ;;;
         note (LogInfo "Path received!") ;;;
         ret (idx + 1)%nat
     | None =>
         note (LogWarn "Invalid path received! Move your robot and retry!") ;;;
         ret idx
     end
   else ret idx)%meth.

(** Lines 586-600: a plan with status 0 becomes the new policy. *)
Definition publish_policy (replan : dict) (t_now : Q) : M node unit :=
  (status <- lift (getitem replan "status") ;;
   is_zero <- lift (eq_zero status) ;;
   if is_zero then
     note (LogInfo "successful replan...") ;;;
     nominal_x <- lift (getitem replan "trajectory") ;;
     nominal_u <- lift (getitem replan "controls") ;;
     gains <- lift (getitem replan "K_closed_loop") ;;
     n <- get ;;
     horizon <- lift match nominal_x with
                     | PyArray a => Np.shape_at a 1
                     | _ => Raise AttributeError
                     end ;;
     match nominal_x with
     | PyArray a =>
         let new_policy :=
           {| X := a; U := nominal_u; K := gains; t0 := t_now;
              p_dt := dt (planner n); p_T := horizon |} in
         modify (fun n => with_policy_buffer
                            (writeFromNonRT new_policy (policy_buffer n)) n) ;;;
         note (LogInfo "Finish planning a new policy...") ;;;
         note Published
     | _ => lift (Raise AttributeError)
     end
   else ret tt)%meth.

(** One pass through the body of [while not rospy.is_shutdown()]
    (lines 545-606). *)
Definition thread_pass (l : locals) : M node locals :=
  (n <- get ;;
   l' <-
     (if replan_guard n l then
        plan_state <- read_buffer plan_state_buffer with_plan_state_buffer ;;
        current_state <- lift match plan_state with
                              | Some a => Np.drop_last a
                              | None => Raise TypeError
                              end ;;
        prev_policy <- read_buffer policy_buffer with_policy_buffer ;;
        initial_controls <-
          match prev_policy with
          | Some pol => lift (get_ref_controls pol (t_last_replan l))
          | None => ret None
          end ;;
        odom_msg <- read_buffer control_state_buffer with_control_state_buffer ;;
        ' (x_pos, y_pos) <- lift match odom_msg with
                                 | Some m => Ok (position_x m, position_y m)
                                 | None => Raise AttributeError
                                 end ;;
        note (LogInfo "x_pos") ;;;
        note (LogInfo "y_pos") ;;;
        idx <- next_leg x_pos y_pos (index l) ;;
        n <- get ;;
        (if new_data_available (path_buffer n) then
           note (LogInfo "new path...") ;;;
           new_path <- read_buffer path_buffer with_path_buffer ;;
           modify (fun n => with_planner
                              (set_ref_path new_path (planner n)) n)
         else ret tt) ;;;
        n <- get ;;
        note (PlanCalled (clock_ticks n)) ;;;
        replan <- (fun n =>
                     let '(r, o) := planner_plan (planner n)
                                      current_state initial_controls in
                     (r, with_planner o n)) ;;
        note PlanReturned ;;;
        t_now <- rostime ;;
        publish_policy replan t_now ;;;
        ret {| index := idx; t_last_replan := t_now |}
      else
        ret {| index := index l;
               t_last_replan := Qred (t_last_replan l + (1 # 100)) |}) ;;
   note (Slept (1 # 100)) ;;;
   ret l')%meth.

(** [n] passes of the loop. *)
Fixpoint thread_passes (k : nat) (l : locals) : M node locals :=
  match k with
  | O => ret l
  | S k' => (l' <- thread_pass l ;; thread_passes k' l')%meth
  end.

End Thread.

(** The call of line 582 against [ILQR.plan] of ilqr.py, whose
    parameters are [init_state] and [controls] only: the keyword
    [verbose] has no parameter to go to. *)
Definition plan_with_verbose (o : ILQR) (init_state : ndarray)
    (controls : option ndarray) : result dict * ILQR :=
  (bad_call "plan" "verbose", o).

End Planner.

(** * ilqr.py: the warm-up run of the constructor *)

Module Warmup.

Import Ilqr.

(** Line 88: the vertices of the obstacle, an array of shape (4, 2). *)
Definition obs : ndarray :=
  Np.of_rows 4 2 [[0; 1]; [0; 1.5]; [0.5; 1]; [0.5; 1.5]].

(** Line 92. *)
Definition x_init : ndarray := Np.mk [5%nat] [0; -(1); 1; 0; 0].

Section WarmUp.

Variable time_time : nat -> Q.

(** [RefPath(centerline, 0.5, 0.5, 1, True)] on the circle of lines
    80-83. *)
Variable circle : result RefPath.

(** [warm_up] (lines 75-98). *)
Definition warm_up (fuel : nat) : M heap unit :=
  (rp <- lift circle ;;
   set_self (set_ref_path (Some rp)) ;;;
   h <- get ;;
   update_obstacles [repeat obs (T (self h))] ;;;
   emit (Print "Start warm up ILQR...") ;;;
   _ <- plan time_time fuel x_init None ;;
   emit (Print "ILQR warm up finished.") ;;;
   set_self (set_ref_path None) ;;;
   set_self (set_obstacle_list []))%meth.

End WarmUp.

End Warmup.

(** * traj_planner.py: the callbacks and the path set-up *)

Module Callbacks.

Import Ilqr Planner.

(** *** [reconfigure_callback] (lines 181-188) *)

(** The latency, the lock that guards it, and what has been logged
    (messages without the numbers they quote). *)
Record tuning : Type :=
  { update_lock : bool; latency : Q; tuning_log : list ros_event }.

(** [self.update_lock.acquire()]: a held lock is waited for; the call
    itself never releases it, so the wait has the outcome [OutOfFuel]. *)
Definition acquire : M tuning unit :=
  fun s =>
    if update_lock s then (OutOfFuel, s)
    else (Ok tt, {| update_lock := true; latency := latency s;
                    tuning_log := tuning_log s |}).

(** [self.update_lock.release()], called by the holder. *)
Definition release : M tuning unit :=
  modify (fun s => {| update_lock := false; latency := latency s;
                      tuning_log := tuning_log s |}).

Definition tuning_note (e : ros_event) : M tuning unit :=
  modify (fun s => {| update_lock := update_lock s; latency := latency s;
                      tuning_log := tuning_log s ++ [e] |}).

Fixpoint config_get (config : list (string * Q)) (key : string) : result Q :=
  match config with
  | [] => Raise KeyError
  | (k, v) :: config' =>
      if String.eqb k key then Ok v else config_get config' key
  end.

Definition reconfigure_callback (config : list (string * Q))
  : M tuning (list (string * Q)) :=
  (acquire ;;;
   v <- lift (config_get config "latency") ;;
   modify (fun s => {| update_lock := update_lock s; latency := v;
                       tuning_log := tuning_log s |}) ;;;
   tuning_note (LogInfo "Latency Updated") ;;;
   (if Np.ltb v 0
    then tuning_note (LogWarn "Negative latency compensation is not a good idea!")
    else ret tt) ;;;
   release ;;;
   ret config)%meth.

(** What a call with the latency [v] logs. *)
Definition latency_log (v : Q) : list ros_event :=
  LogInfo "Latency Updated"
  :: (if Np.ltb v 0
      then [LogWarn "Negative latency compensation is not a good idea!"]
      else []).

(** *** [obstacle_callback] (lines 190-199) *)

(** A Python dictionary with integer keys: [d[k] = v] and [d.get(k)]. *)
Fixpoint dict_set {V : Type} (k : Z) (v : V) (d : list (Z * V)) : list (Z * V) :=
  match d with
  | [] => [(k, v)]
  | (k', v') :: d' =>
      if Z.eqb k' k then (k, v) :: d' else (k', v') :: dict_set k v d'
  end.

Fixpoint dict_get {V : Type} (d : list (Z * V)) (k : Z) : option V :=
  match d with
  | [] => None
  | (k', v) :: d' => if Z.eqb k' k then Some v else dict_get d' k
  end.

Section Obstacles.

(** A marker of the message, and [utils.get_obstacle_vertices]. *)
Variable Marker : Type.
Variable get_obstacle_vertices : Marker -> result (Z * ndarray).

(** The method on the attribute it updates, [static_obstacle_dict]. *)
Definition obstacle_callback (markers : list Marker)
  : M (list (Z * ndarray)) unit :=
  (for_each markers
     (fun marker _ =>
        ' (id, vert) <- lift (get_obstacle_vertices marker) ;;
        modify (dict_set id vert))
     tt)%meth.

End Obstacles.

(** *** [generate_path] and [setup_path] (lines 211-279) *)

(** A pose of the routing answer: position, and the widths and the speed
    limit that the message carries in its orientation. *)
Record Waypoint : Type :=
  { wp_x : Q; wp_y : Q; wp_left : Q; wp_right : Q; wp_speed : Q }.

(** The dictionary of line 227. *)
Definition goal_table : list (Z * (Q * Q)) :=
  [(1%Z, (3.15, 0.15)); (2%Z, (3.15, 0.47)); (3%Z, (5.9, 3.5));
   (4%Z, (5.6, 3.5)); (5%Z, (0.15, 3.5)); (6%Z, (0.45, 3.5));
   (7%Z, (3, 1.1)); (8%Z, (3, 0.8)); (9%Z, (3, 2.2)); (10%Z, (0.75, 2.1));
   (11%Z, (0.75, 4.3)); (12%Z, (4.6, 4.6))].

Definition with_goal_locations (v : list (Z * (Q * Q))) (n : node) : node :=
  {| planner_ready := planner_ready n; replan_dt := replan_dt n;
     planner := planner n; plan_state_buffer := plan_state_buffer n;
     control_state_buffer := control_state_buffer n;
     policy_buffer := policy_buffer n; path_buffer := path_buffer n;
     total_path := total_path n; goal_locations := v;
     goal_path := goal_path n; seen := seen n;
     clock_ticks := clock_ticks n |}.

Definition with_total_path (v : list RefPath) (n : node) : node :=
  {| planner_ready := planner_ready n; replan_dt := replan_dt n;
     planner := planner n; plan_state_buffer := plan_state_buffer n;
     control_state_buffer := control_state_buffer n;
     policy_buffer := policy_buffer n; path_buffer := path_buffer n;
     total_path := v; goal_locations := goal_locations n;
     goal_path := goal_path n; seen := seen n;
     clock_ticks := clock_ticks n |}.

(** The requests that the loop of lines 234-249 sends to the routing
    service: each leg starts where the one before it ends. *)
Fixpoint leg_requests (start : Q * Q) (locations : list (Z * (Q * Q)))
    (goals : list Z) : list ((Q * Q) * (Q * Q)) :=
  match goals with
  | [] => []
  | g :: goals' =>
      match lookup locations g with
      | Ok p => (start, p) :: leg_requests p locations goals'
      | _ => []
      end
  end.

Section Paths.

(** The routing service [/routing/plan], from a start to a goal, and the
    constructor [RefPath(centerline, width_L, width_R, speed_limit, loop)]. *)
Variable plan_client : Q * Q -> Q * Q -> result (list Waypoint).
Variable make_ref_path :
  ndarray -> list Q -> list Q -> list Q -> bool -> result RefPath.

Definition generate_path (poses : list Waypoint) : result RefPath :=
  let x := map wp_x poses in
  let y := map wp_y poses in
  let width_L := map wp_left poses in
  let width_R := map wp_right poses in
  let speed_limit := map wp_speed poses in
  let centerline := Np.of_rows 2 (length poses) [x; y] in
  make_ref_path centerline width_L width_R speed_limit false.

(** A leg that the routing service and [generate_path] give for a
    request. *)
Definition routed (req : (Q * Q) * (Q * Q)) (rp : RefPath) : Prop :=
  exists poses, plan_client (fst req) (snd req) = Ok poses
                /\ generate_path poses = Ok rp.

(** The body of [for goal in self.goal_path] (lines 234-249). *)
Definition add_leg (goal : Z) (start : Q * Q) : M node (Q * Q) :=
  (n <- get ;;
   ' (x_goal, y_goal) <- lift (lookup (goal_locations n) goal) ;;
   note (LogInfo "x goal, y goal") ;;;
   plan_response <- lift (plan_client start (x_goal, y_goal)) ;;
   ref_path <- lift (generate_path plan_response) ;;
   modify (fun n => with_total_path (total_path n ++ [ref_path]) n) ;;;
   ret (x_goal, y_goal))%meth.

Definition setup_path : M node unit :=
  (note (LogInfo "SETTING UP THE PATH") ;;;
   modify (with_goal_locations goal_table) ;;;
   n <- get ;;
   _ <- for_each (goal_path n) add_leg (2, 0.15) ;;
   n <- get ;;
   match nth_error (total_path n) 0 with
   | Some first_leg =>
       modify (fun n => with_path_buffer
                          (writeFromNonRT first_leg (path_buffer n)) n) ;;;
       note (LogInfo "Path received!")
   | None =>
       note (LogWarn "Invalid path received! Move your robot and retry!")
   end)%meth.

End Paths.

End Callbacks.

(** * traj_planner.py: the control thread (lines 314-438) *)

Module ControlThread.

Import Ilqr Planner.

(** The state [x, y, v, psi, delta] and the command record
    [accel, steer, t] that the thread keeps as arrays of five and of
    three floats. *)
Record State : Type :=
  { s_x : Q; s_y : Q; s_v : Q; s_psi : Q; s_delta : Q }.

Record Command : Type := { u_accel : Q; u_steer : Q; u_t : Q }.

Definition state_array (s : State) : ndarray :=
  Np.mk [5%nat] [s_x s; s_y s; s_v s; s_psi s; s_delta s].

(** [np.append(state_cur, t_act)] *)
Definition plan_state_array (s : State) (t_act : Q) : ndarray :=
  Np.mk [6%nat] [s_x s; s_y s; s_v s; s_psi s; s_delta s; t_act].

(** The odometry message as the thread reads it: time stamp, position,
    forward speed and orientation. *)
Record OdometryMsg (Quaternion : Type) : Type :=
  { stamp : Q; pose_x : Q; pose_y : Q; twist_x : Q;
    orientation : Quaternion }.

Arguments stamp {Quaternion} _.
Arguments pose_x {Quaternion} _.
Arguments pose_y {Quaternion} _.
Arguments twist_x {Quaternion} _.
Arguments orientation {Quaternion} _.

(** What the thread publishes. *)
Record ServoMsg : Type :=
  { header_stamp : Q; throttle : Q; servo_steer : Q }.

(** The attributes of the node that the thread uses, what it has
    published and logged, and the number of readings of the ROS clock. *)
Record controller (Quaternion : Type) : Type :=
  { c_policy_buffer : RealtimeBuffer Policy;
    c_control_state_buffer : RealtimeBuffer (OdometryMsg Quaternion);
    c_plan_state_buffer : RealtimeBuffer ndarray;
    simulation : bool;
    receding_horizon : bool;
    c_latency : Q;
    c_update_lock : bool;
    published : list ServoMsg;
    c_log : list ros_event;
    c_ticks : nat }.

Arguments c_policy_buffer {Quaternion} _.
Arguments c_control_state_buffer {Quaternion} _.
Arguments c_plan_state_buffer {Quaternion} _.
Arguments simulation {Quaternion} _.
Arguments receding_horizon {Quaternion} _.
Arguments c_latency {Quaternion} _.
Arguments c_update_lock {Quaternion} _.
Arguments published {Quaternion} _.
Arguments c_log {Quaternion} _.
Arguments c_ticks {Quaternion} _.

(** The locals that live across passes of the loop; [dt] is unbound
    until line 381 or line 395 binds it. *)
Record ctl_locals : Type :=
  { u_queue : list Command;
    prev_state : option State;
    prev_u : Command;
    dt_local : option Q }.

(** Lines 319-323. *)
Definition ctl_start : ctl_locals :=
  {| u_queue := []; prev_state := None;
     prev_u := {| u_accel := 0; u_steer := 0; u_t := 0 |};
     dt_local := None |}.

(** [max(a, b)] and [min(a, b)] of Python: the first argument wins ties. *)
Definition py_max (a b : Q) : Q := if Np.ltb a b then b else a.
Definition py_min (a b : Q) : Q := if Np.ltb b a then b else a.

(** A value that Python uses as one float: an array of a single entry. *)
Definition as_float (a : ndarray) : result Q :=
  match Np.data a with
  | [v] => Ok v
  | _ => Raise ValueError
  end.

Section Thread.

Variable Quaternion : Type.

(** [np.cos], [np.sin], [np.tan] on floats, and the yaw angle
    [euler_from_quaternion(q)[-1]]. *)
Variables np_cos np_sin np_tan : Q -> Q.
Variable euler_yaw : Quaternion -> Q.

(** [rospy.get_rostime().to_sec()]: the n-th reading of the clock. *)
Variable get_rostime : nat -> Q.

(** [policy.get_policy(t)] and [policy.get_policy_by_state(x)] of the
    missing class [Policy]: the triple [state_ref, u_ref, K], or no
    answer when [state_ref] is [None]. *)
Variable get_policy :
  Policy -> Q -> result (option (ndarray * ndarray * ndarray)).
Variable get_policy_by_state :
  Policy -> option State -> result (option (ndarray * ndarray * ndarray)).

(** [self.pwm_converter.convert(accel, steer, v)] *)
Variable pwm_convert : Q -> Q -> Q -> result (Q * Q).

Abbreviation ctl := (controller Quaternion).

(** The helper [dyn_step] (lines 326-337). *)
Definition dyn_step (x : State) (u : Command) (dt : Q) : State :=
  let dx0 := s_v x * np_cos (s_psi x) in
  let dx1 := s_v x * np_sin (s_psi x) in
  let dx2 := u_accel u in
  let dx3 := s_v x * np_tan (u_steer u * 1.1) / 0.257 in
  {| s_x := Qred (s_x x + dx0 * dt);
     s_y := Qred (s_y x + dx1 * dt);
     s_v := py_max 0 (Qred (s_v x + dx2 * dt));
     s_psi := Qred (wrap_heading (Qred (s_psi x + dx3 * dt)));
     s_delta := u_steer u |}.

(** Lines 361-362: the commands issued before the sensor sample leave
    the queue; the last of them is kept. *)
Fixpoint drop_old (t_slam : Q) (u : Command) (queue : list Command)
  : Command * list Command :=
  match queue with
  | c :: queue' =>
      if Np.ltb (u_t c) t_slam then drop_old t_slam c queue' else (u, queue)
  | [] => (u, [])
  end.

(** Lines 379-383: the commands still in the queue are replayed. *)
Fixpoint replay (queue : list Command) (state_cur : State) (u : Command)
    (dt : option Q) : State * Command * option Q :=
  match queue with
  | [] => (state_cur, u, dt)
  | u_next :: queue' =>
      let dt' := Qred (u_t u_next - u_t u) in
      replay queue' (dyn_step state_cur u dt') u_next (Some dt')
  end.

Definition set_policy_buffer (v : RealtimeBuffer Policy) (c : ctl) : ctl :=
  {| c_policy_buffer := v;
     c_control_state_buffer := c_control_state_buffer c;
     c_plan_state_buffer := c_plan_state_buffer c;
     simulation := simulation c; receding_horizon := receding_horizon c;
     c_latency := c_latency c; c_update_lock := c_update_lock c;
     published := published c; c_log := c_log c; c_ticks := c_ticks c |}.

Definition set_control_state_buffer
    (v : RealtimeBuffer (OdometryMsg Quaternion)) (c : ctl) : ctl :=
  {| c_policy_buffer := c_policy_buffer c;
     c_control_state_buffer := v;
     c_plan_state_buffer := c_plan_state_buffer c;
     simulation := simulation c; receding_horizon := receding_horizon c;
     c_latency := c_latency c; c_update_lock := c_update_lock c;
     published := published c; c_log := c_log c; c_ticks := c_ticks c |}.

Definition set_plan_state_buffer (v : RealtimeBuffer ndarray) (c : ctl) : ctl :=
  {| c_policy_buffer := c_policy_buffer c;
     c_control_state_buffer := c_control_state_buffer c;
     c_plan_state_buffer := v;
     simulation := simulation c; receding_horizon := receding_horizon c;
     c_latency := c_latency c; c_update_lock := c_update_lock c;
     published := published c; c_log := c_log c; c_ticks := c_ticks c |}.

Definition set_lock (v : bool) (c : ctl) : ctl :=
  {| c_policy_buffer := c_policy_buffer c;
     c_control_state_buffer := c_control_state_buffer c;
     c_plan_state_buffer := c_plan_state_buffer c;
     simulation := simulation c; receding_horizon := receding_horizon c;
     c_latency := c_latency c; c_update_lock := v;
     published := published c; c_log := c_log c; c_ticks := c_ticks c |}.

Definition set_outputs (p : list ServoMsg) (l : list ros_event) (k : nat)
    (c : ctl) : ctl :=
  {| c_policy_buffer := c_policy_buffer c;
     c_control_state_buffer := c_control_state_buffer c;
     c_plan_state_buffer := c_plan_state_buffer c;
     simulation := simulation c; receding_horizon := receding_horizon c;
     c_latency := c_latency c; c_update_lock := c_update_lock c;
     published := p; c_log := l; c_ticks := k |}.

Definition ctl_rostime : M ctl Q :=
  fun c => (Ok (get_rostime (c_ticks c)),
            set_outputs (published c) (c_log c) (S (c_ticks c)) c).

Definition ctl_note (e : ros_event) : M ctl unit :=
  modify (fun c => set_outputs (published c) (c_log c ++ [e]) (c_ticks c) c).

Definition publish (m : ServoMsg) : M ctl unit :=
  modify (fun c => set_outputs (published c ++ [m]) (c_log c) (c_ticks c) c).

(** [self.update_lock.acquire()]: a held lock is waited for, with the
    outcome [OutOfFuel]. *)
Definition ctl_acquire : M ctl unit :=
  fun c => if c_update_lock c then (OutOfFuel, c) else (Ok tt, set_lock true c).

(** Lines 347-352: the time the command will act at. *)
Definition acting_time : M ctl Q :=
  (c <- get ;;
   if simulation c then ctl_rostime
   else
     ctl_acquire ;;;
     t <- ctl_rostime ;;
     modify (set_lock false) ;;;
     ret (Qred (t + c_latency c)))%meth.

(** Lines 355-397: the current state, predicted from the newest sensor
    sample or from the previous pass. *)
Definition predict_state (l : ctl_locals) (t_act : Q)
  : M ctl (option State * list Command * option Q) :=
  (c <- get ;;
   if new_data_available (c_control_state_buffer c) then
     odom_msg <- (fun c => let '(v, b) := readFromRT (c_control_state_buffer c)
                           in (Ok v, set_control_state_buffer b c)) ;;
     match odom_msg with
     | None => lift (Raise AttributeError)
     | Some msg =>
         let t_slam := stamp msg in
         let '(u, queue) :=
           drop_old t_slam {| u_accel := 0; u_steer := 0; u_t := t_slam |}
             (u_queue l) in
         let psi := euler_yaw (orientation msg) in
         let state_cur :=
           {| s_x := pose_x msg; s_y := pose_y msg; s_v := twist_x msg;
              s_psi := psi; s_delta := u_steer u |} in
         let '(state_cur, u, dt) := replay queue state_cur u (dt_local l) in
         let state_cur := dyn_step state_cur u (Qred (t_act - u_t u)) in
         modify (fun c => set_plan_state_buffer
                            (writeFromNonRT (plan_state_array state_cur t_act)
                               (c_plan_state_buffer c)) c) ;;;
         ret (Some state_cur, queue, dt)
     end
   else
     match prev_state l with
     | Some prev =>
         let dt := Qred (t_act - u_t (prev_u l)) in
         ret (Some (dyn_step prev (prev_u l) dt), u_queue l, Some dt)
     | None => ret (None, u_queue l, dt_local l)
     end)%meth.

(** Lines 400-413: the command of the policy, or the stopping command
    [accel = -5, steer = 0] that line 341 starts from. *)
Definition command_from_policy (policy : option Policy) (l : ctl_locals)
    (state_cur : option State) (dt : option Q) (t_act : Q) : M ctl (Q * Q) :=
  (c <- get ;;
   match policy with
   | None => ret (- (5), 0)
   | Some pol =>
       answer <- lift (if receding_horizon c
                       then get_policy pol t_act
                       else get_policy_by_state pol state_cur) ;;
       match answer with
       | Some (state_ref, u_ref, K) =>
           ' (accel, steer_rate) <-
               lift match state_cur with
                    | None => Raise TypeError
                    | Some s => compute_control (state_array s) state_ref u_ref K
                    end ;;
           dt <- lift match dt with
                      | Some dt => Ok dt
                      | None => Raise UnboundLocalError
                      end ;;
           steer_rate <- lift (as_float steer_rate) ;;
           accel <- lift (as_float accel) ;;
           ret (accel,
                py_max (- 0.37)
                  (py_min 0.37 (Qred (u_steer (prev_u l) + steer_rate * dt))))
       | None =>
           ctl_note (LogWarn "Try to retrieve a policy beyond the horizon! Reset the policy buffer!") ;;;
           modify (fun c => set_policy_buffer (reset (c_policy_buffer c)) c) ;;;
           ret (- (5), 0)
       end
   end)%meth.

(** One pass through the body of [while not rospy.is_shutdown()]
    (lines 339-438); the wait of [rate.sleep()] is not modelled. *)
Definition control_pass (l : ctl_locals) : M ctl ctl_locals :=
  (policy <- (fun c => let '(v, b) := readFromRT (c_policy_buffer c)
                       in (Ok v, set_policy_buffer b c)) ;;
   t_act <- acting_time ;;
   ' (state_cur, queue, dt) <- predict_state l t_act ;;
   ' (accel, steer) <- command_from_policy policy l state_cur dt t_act ;;
   c <- get ;;
   ' (throttle_pwm, steer_pwm) <-
       match simulation c, state_cur with
       | false, Some s => lift (pwm_convert accel steer (s_v s))
       | _, _ => ret (accel, steer)
       end ;;
   now_stamp <- ctl_rostime ;;
   publish {| header_stamp := now_stamp; throttle := throttle_pwm;
              servo_steer := steer_pwm |} ;;;
   let u_record := {| u_accel := accel; u_steer := steer; u_t := t_act |} in
   ret {| u_queue := queue ++ [u_record]; prev_state := state_cur;
          prev_u := u_record; dt_local := dt |})%meth.

(** What a step of the pass leaves alone: the two modes, what has been
    published and the policy in the buffer. *)
Definition untouched (c c' : ctl) : Prop :=
  simulation c' = simulation c
  /\ receding_horizon c' = receding_horizon c
  /\ published c' = published c
  /\ stored (c_policy_buffer c') = stored (c_policy_buffer c).

(** [k] passes of the loop. *)
Fixpoint control_passes (k : nat) (l : ctl_locals) : M ctl ctl_locals :=
  match k with
  | O => ret l
  | S k' => (l' <- control_pass l ;; control_passes k' l')%meth
  end.

End Thread.

End ControlThread.

(** * Objects and inputs for the examples *)

(** [n] passes, each through [f]. *)
Fixpoint iterate {A : Type} (n : nat) (f : A -> result A) (a : A) : result A :=
  match n with
  | O => Ok a
  | S n' => a' <- f a ;; iterate n' f a'
  end.

Module Demo.

Import Ilqr Planner.

(** **** For the feedback law *)

(** A state, given its heading; a reference control; a gain that passes
    the heading error on as the acceleration. *)
Definition state_with_heading (psi : Q) : ndarray :=
  Np.mk [5%nat] [0; 0; 0; Qred psi; 0].
Definition zero_control : ndarray := Np.mk [2%nat] [0; 0].
Definition heading_gain : ndarray :=
  Np.of_rows 2 5 [[0; 0; 0; 1; 0]; [0; 0; 0; 0; 0]].

(** **** For the optimizer *)

(** [c] on the diagonal of every time slice of a stack of shape
    [(n, m, T)]. *)
Definition diagonal_stack (n m T : nat) (c : Q) : ndarray :=
  Np.tabulate [n; m; T]
    (fun mi => match mi with
               | [i; j; _] => if Nat.eqb i j then c else 0
               | _ => 0
               end).

(** Stage costs with Hessians [Q = I], [R = rdiag * I], [H = 0] and no
    gradient, for [nx] states, [nu] controls and horizon [T]. *)
Definition quadratic (nx nu T : nat) (rdiag : Q) : derivatives :=
  {| d_q := Np.zeros [nx; S T];
     d_r := Np.zeros [nu; S T];
     d_Q := diagonal_stack nx nx (S T) 1;
     d_R := diagonal_stack nu nu (S T) rdiag;
     d_H := Np.zeros [nu; nx; S T] |}.

(** A vehicle that stays where it is; its Jacobians are [A = I] and
    [B] = the first [nu] columns of [I]. *)
Definition parked (nx nu T : nat) : Bicycle5D :=
  {| rollout_nominal_np :=
       fun x0 controls =>
         Ok (Np.tabulate [nx; T]
               (fun mi => match mi with
                          | [i; _] => Np.at_index x0 [i]
                          | _ => 0
                          end),
             controls);
     integrate_forward_np := fun x u => Ok (x, u);
     get_jacobian_np :=
       fun _ _ => Ok (diagonal_stack nx nx T 1, diagonal_stack nx nu T 1) |}.

(** A cost model that answers [J] for every trajectory. *)
Definition flat_cost (J : Q) (d : derivatives) : Cost :=
  {| get_traj_cost := fun _ _ _ _ => Ok J;
     get_derivatives_np := fun _ _ _ _ => Ok d |}.

Definition echo_path : RefPath := {| get_reference := fun xy => Ok xy |}.

Definition no_obstacles : CollisionChecker :=
  {| check_collisions := fun _ _ => Ok [] |}.

(** A planner for [nx] states and [nu] controls with horizon 2,
    tolerance 0.001 and regularization bounds 10^-6 and 100. *)
Definition toy_ilqr (nx nu : nat) (J rdiag : Q) (rp : option RefPath) : ILQR :=
  {| dim_x := nx; dim_u := nu; T := 2; dt := 1 # 10; max_iter := 50;
     tol := 1 # 1000; alphas := [1; 1 # 2; 1 # 4];
     reg_min := 1 # 1000000; reg_max := 100; reg_init := 1;
     reg_scale_up := 10; reg_scale_down := 1 # 2; max_attempt := 5;
     dyn := parked nx nu 2;
     cost := flat_cost J (quadratic nx nu 2 rdiag);
     ref_path := rp;
     collision_checker := no_obstacles;
     obstacle_list := [] |}.

Definition fresh (o : ILQR) : heap :=
  {| self := o; trace := []; ticks := 0 |}.

Definition clock (n : nat) : Q := inject_Z (Z.of_nat n).
Definition no_oracle (a : ndarray) : bool := false.

Definition start_state : ndarray := Np.mk [5%nat] [0; -(1); 1; 0; 0].
Definition nominal_trajectory : ndarray := Np.zeros [5; 2]%nat.
Definition nominal_controls : ndarray := Np.zeros [2; 2]%nat.
Definition references : ndarray := Np.zeros [2; 2]%nat.

(** The regularization as the 5x5 array [c * I], and as the 1x1 array
    of a system with a single state. *)
Definition lam_matrix (c : Q) : ndarray :=
  Np.tabulate [5; 5]%nat
    (fun mi => match mi with
               | [i; j] => if Nat.eqb i j then c else 0
               | _ => 0
               end).
Definition lam_1x1 (c : Q) : ndarray := Np.mk [1; 1]%nat [Qred c].

(** The state in which a regularization restart leaves the loop of
    [backward_pass]. *)
Definition restarted (o : ILQR) (lam : ndarray) (st : bp_state) : bp_state :=
  {| l_t := Z.of_nat (T o) - 1; l_lam := lam; l_p := l_p st; l_P := l_P st;
     l_k_open_loop := l_k_open_loop st;
     l_K_closed_loop := l_K_closed_loop st;
     l_Kt := l_Kt st; l_kt := l_kt st |}.

(** **** For the planning thread *)

(** The ROS clock: 1000 s at its first reading, 10 ms more at each next. *)
Definition rostime_10ms (n : nat) : Q :=
  Qred (1000 + inject_Z (Z.of_nat n) * (1 # 100)).

Definition no_warm_start (pol : Policy) (t : Q) : result (option ndarray) :=
  Ok None.

(** An optimizer that takes the keyword and gives up at once. *)
Definition giving_up (o : ILQR) (init_state : ndarray)
    (controls : option ndarray) : result dict * ILQR :=
  (Ok [("status"%string, PyInt (-1))], o).

(** The dictionary of line 227. *)
Definition goals : list (Z * (Q * Q)) :=
  [(1%Z, (3.15, 0.15)); (2%Z, (3.15, 0.47)); (3%Z, (5.9, 3.5)); (4%Z, (5.6, 3.5));
   (5%Z, (0.15, 3.5)); (6%Z, (0.45, 3.5)); (7%Z, (3, 1.1)); (8%Z, (3, 0.8));
   (9%Z, (3, 2.2)); (10%Z, (0.75, 2.1)); (11%Z, (0.75, 4.3)); (12%Z, (4.6, 4.6))].

(** The predicted state and its time stamp, as line 389 builds them. *)
Definition state_sample : ndarray := Np.mk [6%nat] [2; 0.15; 1; 0; 0; 1000].

(** A node that is ready, with a fresh state sample and odometry at the
    start of the first leg, and a replan interval of 0.1 s. *)
Definition node0 : node :=
  {| planner_ready := true;
     replan_dt := 1 # 10;
     planner := toy_ilqr 5 2 5 1 (Some echo_path);
     plan_state_buffer := writeFromNonRT state_sample empty_buffer;
     control_state_buffer :=
       writeFromNonRT {| position_x := 2; position_y := 0.15 |} empty_buffer;
     policy_buffer := empty_buffer;
     path_buffer := empty_buffer;
     total_path := [echo_path];
     goal_locations := goals;
     goal_path := [1; 3; 9]%Z;
     seen := [];
     clock_ticks := 0 |}.


End Demo.

(** * Terms that the further properties are stated with *)

Module Terms.

Import Ilqr Planner.

(** The warm start that [plan] works from (lines 247-251). *)
Definition first_controls (o : ILQR) (controls : option ndarray) : ndarray :=
  match controls with
  | Some c => c
  | None => Np.zeros [dim_u o; T o]
  end.

(** What [emit] leaves of the heap. *)
Definition logged (e : event) (h : heap) : heap :=
  {| self := self h; trace := trace h ++ [e]; ticks := ticks h |}.

(** An outcome that is an answer or an exception. *)
Definition finished {A : Type} (r : result A) : Prop := r <> OutOfFuel.

(** [t_last_replan] after [k] passes of the planning thread that do not
    replan (line 604). *)
Definition idle_time (k : nat) (t : Q) : Q :=
  Nat.iter k (fun t => Qred (t + (1 # 100))) t.

(** A method that leaves the object as it is. *)
Definition keeps_self {A : Type} (c : M heap A) : Prop :=
  forall h, self (snd (c h)) = self h.

End Terms.

(** * Objects and inputs for the further examples *)

Module Samples.

Import Ilqr Planner Warmup Callbacks ControlThread Demo.

(** **** For the callbacks *)

Definition idle_tuning : tuning :=
  {| update_lock := false; latency := 0; tuning_log := [] |}.

(** Markers that carry their identifier and their vertices. *)
Definition marker_of (m : Z * ndarray) : result (Z * ndarray) := Ok m.

Definition corner (c : Q) : ndarray := Np.mk [1%nat] [c].

(** A routing service that answers with the two end points, and a
    constructor of reference paths that accepts everything. *)
Definition straight_route (a b : Q * Q) : result (list Waypoint) :=
  Ok [{| wp_x := fst a; wp_y := snd a; wp_left := 0.3; wp_right := 0.3;
         wp_speed := 1 |};
      {| wp_x := fst b; wp_y := snd b; wp_left := 0.3; wp_right := 0.3;
         wp_speed := 1 |}].

Definition any_ref_path (centerline : ndarray) (width_L width_R speed : list Q)
    (loop : bool) : result RefPath :=
  Ok echo_path.

(** The node before [setup_path], with the goals [1, 3, 9] of line 43,
    and with a goal that line 227 does not list. *)
Definition node_without_path : node :=
  {| planner_ready := false;
     replan_dt := 1 # 10;
     planner := toy_ilqr 5 2 5 1 None;
     plan_state_buffer := empty_buffer;
     control_state_buffer := empty_buffer;
     policy_buffer := empty_buffer;
     path_buffer := empty_buffer;
     total_path := [];
     goal_locations := [];
     goal_path := [1; 3; 9]%Z;
     seen := [];
     clock_ticks := 0 |}.

Definition node_with_goal_13 : node :=
  {| planner_ready := false;
     replan_dt := 1 # 10;
     planner := toy_ilqr 5 2 5 1 None;
     plan_state_buffer := empty_buffer;
     control_state_buffer := empty_buffer;
     policy_buffer := empty_buffer;
     path_buffer := empty_buffer;
     total_path := [];
     goal_locations := [];
     goal_path := [1; 13]%Z;
     seen := [];
     clock_ticks := 0 |}.

(** **** For the control thread *)

(** Orientations given by their yaw angle; a vehicle that heads along
    the x axis. *)
Definition yaw_of (q : Q) : Q := q.
Definition cos_0 (x : Q) : Q := 1.
Definition sin_0 (x : Q) : Q := 0.
Definition tan_0 (x : Q) : Q := 0.

Definition no_pwm (accel steer v : Q) : result (Q * Q) := Ok (accel, steer).

Definition some_policy : Policy :=
  {| X := nominal_trajectory; U := PyNone; K := PyNone; t0 := 1000;
     p_dt := 1 # 10; p_T := 2 |}.

(** A policy asked beyond its horizon, and one that answers with the
    reference state at rest, no control and the gain on the heading. *)
Definition beyond_horizon (pol : Policy) (t : Q)
  : result (option (ndarray * ndarray * ndarray)) := Ok None.
Definition beyond_horizon_by_state (pol : Policy) (x : option State)
  : result (option (ndarray * ndarray * ndarray)) := Ok None.
Definition at_rest (pol : Policy) (t : Q)
  : result (option (ndarray * ndarray * ndarray)) :=
  Ok (Some (state_with_heading 0, zero_control, heading_gain)).
Definition at_rest_by_state (pol : Policy) (x : option State)
  : result (option (ndarray * ndarray * ndarray)) :=
  Ok (Some (state_with_heading 0, zero_control, heading_gain)).

(** A policy that asks, at the reference state at rest, for a steering
    rate of 2 rad/s. *)
Definition steering (pol : Policy) (t : Q)
  : result (option (ndarray * ndarray * ndarray)) :=
  Ok (Some (state_with_heading 0, Np.mk [2%nat] [0; 2], heading_gain)).
Definition steering_by_state (pol : Policy) (x : option State)
  : result (option (ndarray * ndarray * ndarray)) :=
  Ok (Some (state_with_heading 0, Np.mk [2%nat] [0; 2], heading_gain)).

(** The locals after a pass at 999.9 s that knew the state and steered
    0.3 rad. *)
Definition steering_locals : ctl_locals :=
  {| u_queue := [{| u_accel := 0; u_steer := 0.3; u_t := 999.9 |}];
     prev_state := Some {| s_x := 2; s_y := 0.15; s_v := 1; s_psi := 0;
                           s_delta := 0.3 |};
     prev_u := {| u_accel := 0; u_steer := 0.3; u_t := 999.9 |};
     dt_local := None |}.

(** The thread in simulation, with nothing in its buffers. *)
Definition car : controller Q :=
  {| c_policy_buffer := empty_buffer;
     c_control_state_buffer := empty_buffer;
     c_plan_state_buffer := empty_buffer;
     simulation := true;
     receding_horizon := true;
     c_latency := 0;
     c_update_lock := false;
     published := [];
     c_log := [];
     c_ticks := 0 |}.

Definition car_with_policy : controller Q :=
  set_policy_buffer (writeFromNonRT some_policy empty_buffer) car.

(** A first odometry sample, stamped at the start of the clock. *)
Definition first_sample : OdometryMsg Q :=
  {| stamp := 1000; pose_x := 2; pose_y := 0.15; twist_x := 1;
     orientation := 0 |}.

Definition car_with_policy_and_sample : controller Q :=
  set_control_state_buffer (writeFromNonRT first_sample empty_buffer)
    car_with_policy.

End Samples.

(** * Properties *)

Import Ilqr Planner Demo.

(** ** Outcomes *)

Lemma bind_Ok_inv {A B : Type} (r : result A) (k : A -> result B) (b : B) :
  bind r k = Ok b -> exists a, r = Ok a /\ k a = Ok b.
Proof.
  destruct r as [a| |]; simpl; intros H; try discriminate.
  exists a; split; [reflexivity | exact H].
Qed.

(** Splits a hypothesis [x <- c ;; k = Ok b] into the two steps it records. *)
Ltac inv_bind H :=
  let a := fresh "v" in
  let E := fresh "E" in
  apply bind_Ok_inv in H; destruct H as (a & E & H).

(** ** Arrays *)

Lemma unravel_length (s : list nat) (i : nat) :
  length (Np.unravel s i) = length s.
Proof. revert i. induction s as [|d s IH]; intros i; simpl; [|rewrite IH]; reflexivity. Qed.

Lemma ravel_unravel (s : list nat) (i : nat) :
  (i < Np.size s)%nat -> Np.ravel s (Np.unravel s i) = i.
Proof.
  revert i. induction s as [|d s IH]; intros i Hi; simpl in *.
  - lia.
  - assert (Hs : (Np.size s <> 0)%nat) by (intros E; rewrite E in Hi; lia).
    fold (Np.size s) in *.
    rewrite IH by (apply Nat.mod_upper_bound; exact Hs).
    rewrite Nat.mod_small.
    + rewrite Nat.mul_comm. symmetry. apply Nat.div_mod_eq.
    + apply Nat.Div0.div_lt_upper_bound. rewrite Nat.mul_comm. exact Hi.
Qed.

(** Axes of length one are read at index 0, where they are anyway. *)
Lemma own_index (s : list nat) (i : nat) :
  map (fun '(d, x) => if (d =? 1)%nat then 0%nat else x)
    (combine s (Np.unravel s i)) = Np.unravel s i.
Proof.
  revert i. induction s as [|d s IH]; intros i; simpl; [reflexivity|].
  rewrite IH. f_equal.
  destruct (d =? 1)%nat eqn:E; [|reflexivity].
  apply Nat.eqb_eq in E. subst d. rewrite Nat.mod_1_r. reflexivity.
Qed.

Lemma map_seq_nth {A : Type} (f : Q -> A) (l : list Q) :
  map (fun i => f (nth i l 0)) (seq 0 (length l)) = map f l.
Proof.
  induction l as [|x l IH]; [reflexivity|].
  cbn [length seq map nth]. f_equal.
  rewrite <- IH, <- seq_shift, map_map. reflexivity.
Qed.

Lemma bc_index_own (x : ndarray) (i : nat) :
  (i < Np.size (Np.shape x))%nat ->
  Np.bc_index x (Np.unravel (Np.shape x) i) = nth i (Np.data x) 0.
Proof.
  intros Hi. unfold Np.bc_index, Np.ndim.
  rewrite unravel_length, Nat.sub_diag. cbn [skipn].
  rewrite own_index. unfold Np.at_index, Np.at_flat.
  rewrite ravel_unravel by exact Hi. reflexivity.
Qed.

Lemma bc_index_scalar (a : Q) (mi : list nat) :
  Np.bc_index (Np.scalar a) mi = Qred a.
Proof. reflexivity. Qed.

(** [a * x] for a float [a] and an array [x]: entry by entry. *)
Lemma mul_scalar (a : Q) (x : ndarray) :
  Np.well_formed x ->
  Np.mul (Np.scalar a) x = Ok (Np.map_arr (Qmult (Qred a)) x).
Proof.
  intros Hwf. unfold Np.mul, Np.elementwise, Np.broadcast_shapes.
  cbn [Np.scalar Np.shape rev Np.broadcast_rev option_map].
  rewrite rev_involutive.
  unfold Np.tabulate, Np.map_arr. do 2 f_equal.
  rewrite <- (map_seq_nth (fun y => Qred (Qred a * y))).
  rewrite Hwf. apply map_ext_in. intros i Hi.
  apply in_seq in Hi.
  rewrite bc_index_scalar, bc_index_own by lia. reflexivity.
Qed.

Lemma map_arr_well_formed (f : Q -> Q) (x : ndarray) :
  Np.well_formed x -> Np.well_formed (Np.map_arr f x).
Proof. unfold Np.well_formed, Np.map_arr; simpl. rewrite length_map. auto. Qed.

Lemma Forall2_through_map {A B C : Type} (P : A -> C -> Prop) (g : B -> C)
    (l' : list A) (l : list B) :
  Forall2 P l' (map g l) -> Forall2 (fun y x => P y (g x)) l' l.
Proof.
  revert l'. induction l as [|x l IH]; intros l' H; inversion H; subst;
    constructor; auto.
Qed.

Lemma Forall2_refl_Qeq (l : list Q) : Forall2 Qeq l l.
Proof. induction l; constructor; [reflexivity | assumption]. Qed.

Lemma iter_Qmult_proper (n : nat) (a x y : Q) :
  x == y -> Nat.iter n (Qmult a) x == Nat.iter n (Qmult a) y.
Proof.
  intros H. induction n as [|n IH]; simpl; [exact H | rewrite IH; reflexivity].
Qed.


Lemma iterate_mul_scalar (n : nat) (a : Q) (x y : ndarray) :
  Np.well_formed x ->
  iterate n (Np.mul (Np.scalar a)) x = Ok y ->
  Np.shape y = Np.shape x
  /\ Forall2 (fun v u => v == Nat.iter n (Qmult a) u) (Np.data y) (Np.data x).
Proof.
  revert x. induction n as [|n IH]; intros x Hwf H; cbn [iterate] in H.
  - injection H as <-. split; [reflexivity|]. apply Forall2_refl_Qeq.
  - rewrite (@mul_scalar a x Hwf) in H. cbn [bind] in H.
    apply IH in H; [|apply map_arr_well_formed; exact Hwf].
    destruct H as [Hs Hd]. split; [exact Hs|].
    unfold Np.map_arr in Hd; cbn [Np.data] in Hd.
    apply Forall2_through_map in Hd.
    eapply Forall2_impl; [|exact Hd].
    intros v u Hv. cbv beta in Hv. rewrite Hv.
    rewrite Nat.iter_succ_r. apply iter_Qmult_proper.
    rewrite !Qred_correct. reflexivity.
Qed.

(** ** The heading wrap of [compute_control] *)








(** ** Methods *)

Lemma bindM_Ok_inv {S A B : Type} (c : M S A) (k : A -> M S B) (s s' : S) (b : B) :
  bindM c k s = (Ok b, s') ->
  exists a s1, c s = (Ok a, s1) /\ k a s1 = (Ok b, s').
Proof.
  unfold bindM. destruct (c s) as [[a| |] s1]; intros H; try discriminate.
  exists a, s1. split; [reflexivity | exact H].
Qed.

Lemma bindM_ext1 {S A B : Type} (c1 c2 : M S A) (k : A -> M S B) (s : S) :
  c1 s = c2 s -> bindM c1 k s = bindM c2 k s.
Proof. unfold bindM. intros ->. reflexivity. Qed.

Lemma bindM_get {S B : Type} (k : S -> M S B) (s : S) :
  bindM get k s = k s s.
Proof. reflexivity. Qed.

Ltac inv_bindM H :=
  let a := fresh "v" in
  let s := fresh "h" in
  let E := fresh "E" in
  apply bindM_Ok_inv in H; destruct H as (a & s & E & H).

(** Follows a method that returned through all its steps. *)
Ltac inv_meth H :=
  repeat match type of H with
         | (let (_, _) := ?x in _) _ = _ => destruct x
         | bindM _ _ _ = (Ok _, _) => inv_bindM H
         end.

Lemma while_invariant {S : Type} (I : S -> Prop) (cond : S -> bool)
    (body : S -> result S) :
  (forall s s', I s -> cond s = true -> body s = Ok s' -> I s') ->
  forall fuel s s', I s -> while fuel cond body s = Ok s' ->
                    I s' /\ cond s' = false.
Proof.
  intros Hstep. induction fuel as [|fuel IH]; intros s s' Hs H; simpl in H.
  - destruct (cond s) eqn:Hc; [discriminate|]. injection H as <-. auto.
  - destruct (cond s) eqn:Hc.
    + inv_bind H. eapply IH; [|exact H]. eapply Hstep; eauto.
    + injection H as <-. auto.
Qed.

(** ** [plan] *)

(** C6: called while no reference path is set, [plan] returns at once the
    dictionary with the failure status -1 alone; the planner object is
    left as it was, the clock is not read, and the only thing done is
    the printed message: no rollout, no reference or cost evaluation. *)
Theorem plan_without_reference_path
    (time_time : nat -> Q) (fuel : nat) (init_state : ndarray)
    (controls : option ndarray) (h : heap) :
  ref_path (self h) = None ->
  plan time_time fuel init_state controls h
  = (Ok [("status"%string, PyInt (-1))],
     {| self := self h;
        trace := trace h ++ [Print "No reference path is provided."];
        ticks := ticks h |}).
Proof.
  intros Hnone. unfold plan. rewrite bindM_get.
  rewrite Hnone. reflexivity.
Qed.

Lemma plan_without_reference_path_witness :
  ref_path (self (fresh (toy_ilqr 5 2 5 1 None))) = None
  /\ plan clock 5 start_state (Some nominal_controls)
       (fresh (toy_ilqr 5 2 5 1 None))
     = (Ok [("status"%string, PyInt (-1))],
        {| self := toy_ilqr 5 2 5 1 None;
           trace := [Print "No reference path is provided."];
           ticks := 0 |}).
Proof.
  split; [reflexivity|].
  exact (@plan_without_reference_path clock 5 start_state
           (Some nominal_controls) (fresh (toy_ilqr 5 2 5 1 None)) eq_refl).
Defined.

(** The body of the loop of [plan] stops at its first name. *)
Lemma plan_body_raises (fuel : nat) (path_refs : ndarray)
    (obs_refs : list ndarray) (J : Q) (cur : ndarray * ndarray * Q) (h : heap) :
  plan_body fuel path_refs obs_refs J cur h = (Raise NameError, h).
Proof. destruct cur as [[tr c] l]. reflexivity. Qed.

Lemma plan_loop (fuel : nat) (path_refs : ndarray) (obs_refs : list ndarray)
    (J : Q) (b : bool) (cur : ndarray * ndarray * Q) (h : heap) :
  whileM fuel (fun _ => b) (plan_body fuel path_refs obs_refs J) cur h
  = if b then (match fuel with O => OutOfFuel | S _ => Raise NameError end, h)
    else (Ok cur, h).
Proof.
  destruct fuel, b; try reflexivity.
  cbn [whileM]. unfold bindM. rewrite plan_body_raises. reflexivity.
Qed.

(** C2 (what the code does instead): whenever [plan] returns a
    dictionary, its status is -1 (no reference path) or [None]; it is
    never an index into [status_lookup], so neither "Converged" nor
    "Iteration Limit Exceed" is ever reported. *)
Theorem plan_never_reports_convergence
    (time_time : nat -> Q) (fuel : nat) (init_state : ndarray)
    (controls : option ndarray) (h : heap) (d : dict) :
  fst (plan time_time fuel init_state controls h) = Ok d ->
  getitem d "status" = Ok (PyInt (-1)) \/ getitem d "status" = Ok PyNone.
Proof.
  destruct (plan time_time fuel init_state controls h) as [r h'] eqn:H.
  cbn [fst]. intros ->.
  unfold plan in H. inv_bindM H.
  destruct (ref_path (self v)) as [rp|]; inv_meth H;
    injection H as <- _; [right | left]; reflexivity.
Qed.

Lemma plan_never_reports_convergence_witness :
  fst (plan clock 5 start_state None (fresh (toy_ilqr 5 2 5 1 (Some echo_path))))
  = Ok [("t_process"%string, PyFloat 1);
        ("trajectory"%string,
         PyArray (Np.mk [5; 2]%nat [0; 0; -(1); -(1); 1; 1; 0; 0; 0; 0]));
        ("controls"%string, PyArray (Np.zeros [2; 2]%nat));
        ("status"%string, PyNone);
        ("K_closed_loop"%string, PyNone);
        ("k_open_loop"%string, PyNone)]
  /\ (getitem [("t_process"%string, PyFloat 1);
               ("trajectory"%string,
                PyArray (Np.mk [5; 2]%nat [0; 0; -(1); -(1); 1; 1; 0; 0; 0; 0]));
               ("controls"%string, PyArray (Np.zeros [2; 2]%nat));
               ("status"%string, PyNone);
               ("K_closed_loop"%string, PyNone);
               ("k_open_loop"%string, PyNone)] "status" = Ok (PyInt (-1))
      \/ getitem [("t_process"%string, PyFloat 1);
                  ("trajectory"%string,
                   PyArray (Np.mk [5; 2]%nat [0; 0; -(1); -(1); 1; 1; 0; 0; 0; 0]));
                  ("controls"%string, PyArray (Np.zeros [2; 2]%nat));
                  ("status"%string, PyNone);
                  ("K_closed_loop"%string, PyNone);
                  ("k_open_loop"%string, PyNone)] "status" = Ok PyNone).
Proof.
  assert (H : fst (plan clock 5 start_state None
                     (fresh (toy_ilqr 5 2 5 1 (Some echo_path))))
              = Ok [("t_process"%string, PyFloat 1);
                    ("trajectory"%string,
                     PyArray (Np.mk [5; 2]%nat [0; 0; -(1); -(1); 1; 1; 0; 0; 0; 0]));
                    ("controls"%string, PyArray (Np.zeros [2; 2]%nat));
                    ("status"%string, PyNone);
                    ("K_closed_loop"%string, PyNone);
                    ("k_open_loop"%string, PyNone)])
    by (vm_compute; reflexivity).
  split; [exact H|].
  exact (plan_never_reports_convergence _ _ _ _ _ H).
Defined.

(** The two ways the loop of [plan] can go: a first cost within the
    tolerance of zero enters the loop, which stops at the unbound name
    [alpha]; any other first cost skips the loop, and the first rollout
    is returned with status [None] after no iteration at all. *)
Lemma plan_loop_examples :
  fst (plan clock 5 start_state None (fresh (toy_ilqr 5 2 0 1 (Some echo_path))))
  = Raise NameError
  /\ (exists d,
        fst (plan clock 5 start_state None
               (fresh (toy_ilqr 5 2 5 1 (Some echo_path)))) = Ok d
        /\ getitem d "status" = Ok PyNone
        /\ getitem d "K_closed_loop" = Ok PyNone
        /\ trace (snd (plan clock 5 start_state None
                         (fresh (toy_ilqr 5 2 5 1 (Some echo_path)))))
           = [Time;
              Call "dyn.rollout_nominal_np" [start_state; Np.zeros [2; 2]%nat];
              Call "ref_path.get_reference"
                [Np.mk [2; 2]%nat [0; 0; -(1); -(1)]];
              Call "collision_checker.check_collisions"
                [Np.mk [5; 2]%nat [0; 0; -(1); -(1); 1; 1; 0; 0; 0; 0]];
              Call "cost.get_traj_cost"
                [Np.mk [5; 2]%nat [0; 0; -(1); -(1); 1; 1; 0; 0; 0; 0];
                 Np.zeros [2; 2]%nat;
                 Np.mk [2; 2]%nat [0; 0; -(1); -(1)]];
              Time]).
Proof.
  split; [vm_compute; reflexivity|].
  eexists. split; [vm_compute; reflexivity|].
  repeat split; vm_compute; reflexivity.
Qed.

(** C10, as stated, fails on the code: with no reference path set, a
    warm start whose second dimension (5) differs from the horizon (2)
    fails no assertion; [plan] returns the status -1. *)
Lemma plan_warm_start_counterexample :
  Np.shape_at (Np.zeros [2; 5]%nat) 1 = Ok 5%nat
  /\ T (toy_ilqr 5 2 5 1 None) = 2%nat
  /\ fst (plan clock 5 start_state (Some (Np.zeros [2; 5]%nat))
            (fresh (toy_ilqr 5 2 5 1 None)))
     = Ok [("status"%string, PyInt (-1))]
  /\ fst (plan clock 5 start_state (Some (Np.zeros [2; 5]%nat))
            (fresh (toy_ilqr 5 2 5 1 None)))
     <> Raise AssertionError.
Proof.
  repeat split; try (vm_compute; reflexivity).
  vm_compute. discriminate.
Qed.

(** C10 (amended): when a reference path is set, a call of [plan] with a
    warm start whose second dimension differs from the horizon [T] fails
    the assertion, with nothing done before; and a call with no control
    sequence does what a call with the all-zeros sequence of shape
    [(dim_u, T)] does. *)
Theorem plan_checks_warm_start
    (time_time : nat -> Q) (fuel : nat) (init_state : ndarray) (h : heap)
    (rp : RefPath) (c : ndarray) (n : nat) :
  ref_path (self h) = Some rp ->
  Np.shape_at c 1 = Ok n ->
  n <> T (self h) ->
  plan time_time fuel init_state (Some c) h = (Raise AssertionError, h)
  /\ plan time_time fuel init_state None h
     = plan time_time fuel init_state
         (Some (Np.zeros [dim_u (self h); T (self h)])) h.
Proof.
  intros Hrp Hc Hn. split.
  - unfold plan. rewrite bindM_get. rewrite Hrp.
    unfold bindM, lift. rewrite Hc.
    apply Nat.eqb_neq in Hn. rewrite Hn. reflexivity.
  - unfold plan. rewrite !bindM_get, Hrp.
    apply bindM_ext1.
    unfold bindM, lift, ret.
    cbn [Np.shape_at Np.zeros Np.shape nth_error].
    rewrite Nat.eqb_refl. reflexivity.
Qed.

Lemma plan_checks_warm_start_witness :
  ref_path (self (fresh (toy_ilqr 5 2 5 1 (Some echo_path)))) = Some echo_path
  /\ Np.shape_at (Np.zeros [2; 5]%nat) 1 = Ok 5%nat
  /\ 5%nat <> T (self (fresh (toy_ilqr 5 2 5 1 (Some echo_path))))
  /\ plan clock 5 start_state (Some (Np.zeros [2; 5]%nat))
       (fresh (toy_ilqr 5 2 5 1 (Some echo_path)))
     = (Raise AssertionError, fresh (toy_ilqr 5 2 5 1 (Some echo_path))).
Proof.
  assert (Hn : 5%nat <> T (self (fresh (toy_ilqr 5 2 5 1 (Some echo_path)))))
    by (cbn; lia).
  split; [reflexivity|]. split; [reflexivity|]. split; [exact Hn|].
  exact (proj1 (@plan_checks_warm_start clock 5 start_state
                  (fresh (toy_ilqr 5 2 5 1 (Some echo_path)))
                  echo_path (Np.zeros [2; 5]%nat) 5%nat
                  eq_refl eq_refl Hn)).
Defined.

(** ** [forward_pass] *)

Lemma broadcast_rev_length (r1 r2 r : list nat) :
  Np.broadcast_rev r1 r2 = Some r ->
  length r = Nat.max (length r1) (length r2).
Proof.
  revert r2 r. induction r1 as [|a r1 IH]; intros r2 r H.
  - simpl in H. injection H as <-. reflexivity.
  - destruct r2 as [|b r2].
    + simpl in H. injection H as <-. simpl. reflexivity.
    + simpl in H.
      destruct (Np.broadcast_rev r1 r2) as [r'|] eqn:E; [|discriminate].
      apply IH in E.
      destruct (a =? b)%nat; [|destruct (a =? 1)%nat; [|destruct (b =? 1)%nat]];
        try discriminate; injection H as <-; simpl; rewrite E; reflexivity.
Qed.

(** A value with a leading axis of length 0 and one axis more than the
    target cannot be assigned. *)
Lemma empty_rows_not_assignable (s target : list nat) :
  length target = length s ->
  Np.assignable (0%nat :: s) target = false.
Proof.
  intros Hlen. unfold Np.assignable.
  replace (length (0%nat :: s) - length target)%nat with 1%nat
    by (cbn [length]; lia).
  cbn [Np.strip_ones].
  unfold Np.broadcast_shapes.
  destruct (Np.broadcast_rev (rev (0%nat :: s)) (rev target)) as [r|] eqn:E;
    [|reflexivity].
  cbn [option_map].
  destruct (list_eq_dec Nat.eq_dec (rev r) target) as [Heq|]; [|reflexivity].
  exfalso. apply broadcast_rev_length in E.
  subst target. rewrite !length_rev in E. rewrite length_rev in Hlen.
  cbn [length] in E. lia.
Qed.

(** Line 206, [trajectory_new[:, 0] = trajectory[: 0]]: the right-hand
    side is the slice of no rows, not the first column. *)
Lemma first_column_from_no_rows (trajectory : ndarray) :
  exists e,
    (v <- Np.head_slice 0 trajectory ;;
     Np.put 1 0 (Np.zeros_like trajectory) v) = Raise e.
Proof.
  unfold Np.head_slice, Np.put, Np.zeros_like, Np.zeros.
  destruct (Np.shape trajectory) as [|d [|d1 s]] eqn:Hs; cbn.
  - eexists; reflexivity.
  - eexists; reflexivity.
  - destruct d1 as [|d1]; cbn [Nat.ltb Nat.leb].
    + eexists; reflexivity.
    + rewrite (@empty_rows_not_assignable (S d1 :: s) (d :: s)) by reflexivity.
      eexists; reflexivity.
Qed.

(** C3 (what the code does instead): on every input, [forward_pass]
    raises at line 206, before any step size is tried, any trajectory is
    simulated or any cost is compared; it never hands back a candidate,
    improving or not, and it leaves the planner untouched. *)
Theorem forward_pass_always_raises (fuel : nat) (trajectory controls : ndarray)
    (J : Q) (K k : ndarray) (alpha epsilon : Q) (h : heap) :
  exists e,
    forward_pass fuel trajectory controls J K k alpha epsilon h = (Raise e, h).
Proof.
  destruct (first_column_from_no_rows trajectory) as [e He].
  exists e. unfold forward_pass. cbv zeta. unfold bindM, lift.
  rewrite He. reflexivity.
Qed.

(** Past line 206, the search itself hands back its last candidate when
    the step sizes run out, whatever that candidate costs: with a first
    step size not above [rho], the arrays come back as they went in and
    no cost is evaluated. *)
Lemma line_search_returns_unimproved (fuel : nat) (trajectory controls : ndarray)
    (J : Q) (K k : ndarray) (rho epsilon alpha : Q)
    (cur : ndarray * ndarray) (h : heap) :
  Np.ltb rho alpha = false ->
  line_search fuel trajectory controls J K k rho epsilon alpha cur h
  = (Ok cur, h).
Proof. intros H. destruct fuel; simpl; rewrite H; reflexivity. Qed.

(** ** [backward_pass] *)

(** A pass through the body of the loop that completes is a
    regularization restart: the other branch stops at [tranpose]. *)
Lemma bp_body_Ok (eig_big : ndarray -> bool) (o : ILQR) (d : derivatives)
    (A B alpha : ndarray) (st st' : bp_state) :
  bp_body eig_big o d A B alpha st = Ok st' ->
  exists lam, Np.mul alpha (l_lam st) = Ok lam /\ st' = restarted o lam st.
Proof.
  intros H. unfold bp_body in H. cbv zeta in H.
  do 15 inv_bind H.
  destruct v13.
  - inv_bind H. injection H as <-. exists v13. split; [assumption|reflexivity].
  - do 5 inv_bind H. simpl in H. discriminate.
Qed.

(** C5 (what the code does instead): on every input, [backward_pass]
    returns nothing: it raises, or it restarts for ever.  No gain
    sequence of length [T], and no gain at all, comes back. *)
Theorem backward_pass_never_returns (eig_big : ndarray -> bool) (fuel : nat)
    (trajectory controls path_refs : ndarray) (obs_refs : list ndarray)
    (alpha b lam : ndarray) (h : heap) :
  returns (fst (backward_pass eig_big fuel trajectory controls path_refs
                  obs_refs alpha b lam h)) = false.
Proof.
  destruct (backward_pass eig_big fuel trajectory controls path_refs
              obs_refs alpha b lam h) as [[v| |] h'] eqn:H; try reflexivity.
  exfalso. unfold backward_pass in H. inv_meth H.
  unfold lift in H. injection H as H _.
  inv_bind H. inv_bind H.
  apply (while_invariant (fun st => l_Kt st = None)) in E3.
  - destruct E3 as [HK _]. unfold bp_return in H. rewrite HK in H. discriminate.
  - intros s s' Hs _ Hb. apply bp_body_Ok in Hb. destruct Hb as (l & _ & ->).
    exact Hs.
  - unfold bp_init in E2. do 2 inv_bind E2. injection E2 as <-. reflexivity.
Qed.

(** C1 (what the code does instead), on a system of five states and two
    controls with horizon 2, [R = I] (regularized block positive
    definite) or [R = -10 I] (not positive definite), scale factor 10:
    - with the float [lam = 1.0], line 169 raises before any test;
    - with [lam] the 5x5 array [1.0 * I] and the block positive
      definite, every pass restarts the recursion with [lam] ten times
      larger, no gain is bound or stored, and the pass never ends;
    - with the block not positive definite, nothing is aborted or
      rescaled: the gains are computed from it, and line 180 raises on the
      inverse of the 2x5 block [Qux_reg];
    - on a system of one state and one control, the gains of a block that
      is not positive definite are stored, and line 186 raises. *)
Theorem backward_pass_definiteness_test_inverted (eig_big : ndarray -> bool) :
  let run o lam :=
    fst (backward_pass eig_big 10 nominal_trajectory nominal_controls
           references [] (Np.scalar 10) (Np.scalar (1 # 2)) lam (fresh o)) in
  let definite := toy_ilqr 5 2 5 1 (Some echo_path) in
  let indefinite := toy_ilqr 5 2 5 (-10) (Some echo_path) in
  run definite (Np.scalar 1) = Raise ValueError
  /\ run indefinite (Np.scalar 1) = Raise ValueError
  /\ run definite (lam_matrix 1) = OutOfFuel
  /\ (exists st0,
        bp_init definite (quadratic 5 2 2 1) (lam_matrix 1) = Ok st0
        /\ iterate 3 (bp_body eig_big definite (quadratic 5 2 2 1)
                        (diagonal_stack 5 5 2 1) (diagonal_stack 5 2 2 1)
                        (Np.scalar 10)) st0
           = Ok (restarted definite (lam_matrix 1000) st0)
        /\ l_Kt st0 = None
        /\ l_K_closed_loop st0 = Np.zeros [2; 4; 2]%nat)
  /\ run indefinite (lam_matrix 1) = Raise LinAlgError
  /\ run (toy_ilqr 1 1 5 (-10) (Some echo_path)) (lam_1x1 1)
     = Raise AttributeError.
Proof.
  cbv zeta. repeat split; try (vm_compute; reflexivity).
  eexists. split; [vm_compute; reflexivity|].
  repeat split; vm_compute; reflexivity.
Qed.

Lemma bp_iterate_lam (eig_big : ndarray -> bool) (o : ILQR)
    (d : derivatives) (A B alpha : ndarray) (n : nat) (st st' : bp_state) :
  iterate n (bp_body eig_big o d A B alpha) st = Ok st' ->
  iterate n (Np.mul alpha) (l_lam st) = Ok (l_lam st').
Proof.
  revert st. induction n as [|n IH]; intros st H; simpl in H |- *.
  - injection H as <-. reflexivity.
  - inv_bind H. apply bp_body_Ok in E. destruct E as (lam & Hlam & ->).
    rewrite Hlam. simpl. apply (IH _ H).
Qed.

(** After [n] passes of the loop that complete, [lam] is [alpha * lam]
    applied [n] times to the value it started from; for a float
    [alpha = a], every entry of [lam] has been multiplied [n] times by
    [a]. *)
Lemma lam_after_restarts (eig_big : ndarray -> bool) (o : ILQR)
    (d : derivatives) (A B alpha : ndarray) (n : nat) (st st' : bp_state) :
  iterate n (bp_body eig_big o d A B alpha) st = Ok st' ->
  iterate n (Np.mul alpha) (l_lam st) = Ok (l_lam st')
  /\ forall a : Q,
       alpha = Np.scalar a ->
       Np.well_formed (l_lam st) ->
       Np.shape (l_lam st') = Np.shape (l_lam st)
       /\ Forall2 (fun v u => v == Nat.iter n (Qmult a) u)
            (Np.data (l_lam st')) (Np.data (l_lam st)).
Proof.
  intros H. apply bp_iterate_lam in H. split; [exact H|].
  intros a -> Hwf. exact (@iterate_mul_scalar n a _ _ Hwf H).
Qed.

(** C4 (what the code does instead), on a system of five states and two
    controls with horizon 2, [reg_min = 10^-6], [reg_max = 100],
    [reg_init = 1] and [reg_scale_up = 10]:
    - with the float [lam = reg_init], as line 271 binds it, line 169
      raises before [lam] is scaled at all;
    - with [lam] the 5x5 array [reg_init * I], the form that line 169
      accepts, three passes of the loop leave [lam = 1000 * I], above
      [reg_max];
    - [backward_pass] does not read the two bounds: with any other values
      loaded for [reg_min] and [reg_max] it answers the same, on every
      input. *)
Theorem regularization_bounds_never_enforced (eig_big : ndarray -> bool) :
  let o := toy_ilqr 5 2 5 1 (Some echo_path) in
  fst (backward_pass eig_big 10 nominal_trajectory nominal_controls
         references [] (Np.scalar (reg_scale_up o))
         (Np.scalar (reg_scale_down o)) (Np.scalar (reg_init o)) (fresh o))
  = Raise ValueError
  /\ (reg_min o <= reg_init o /\ reg_init o <= reg_max o)
  /\ (exists st0 st,
        bp_init o (quadratic 5 2 2 1) (lam_matrix (reg_init o)) = Ok st0
        /\ iterate 3 (bp_body eig_big o (quadratic 5 2 2 1)
                        (diagonal_stack 5 5 2 1) (diagonal_stack 5 2 2 1)
                        (Np.scalar (reg_scale_up o))) st0 = Ok st
        /\ l_lam st = lam_matrix 1000
        /\ reg_max o < 1000)
  /\ (forall (lo hi : Q) (p : ILQR) (fuel : nat)
             (trajectory controls path_refs : ndarray)
             (obs_refs : list ndarray) (alpha b lam : ndarray),
        fst (backward_pass eig_big fuel trajectory controls path_refs
               obs_refs alpha b lam (fresh (set_reg_bounds lo hi p)))
        = fst (backward_pass eig_big fuel trajectory controls path_refs
                 obs_refs alpha b lam (fresh p))).
Proof.
  cbv zeta. split; [vm_compute; reflexivity|].
  split; [split; vm_compute; discriminate|].
  split.
  - eexists. eexists. split; [vm_compute; reflexivity|].
    split; [vm_compute; reflexivity|]. split; reflexivity.
  - intros lo hi p fuel trajectory controls path_refs obs_refs alpha b lam.
    unfold backward_pass. rewrite !bindM_get.
    unfold bindM, call, emit, modify, lift, fresh.
    cbn [self cost dyn set_reg_bounds].
    destruct (get_derivatives_np (cost p) trajectory controls path_refs
                obs_refs) as [d| |]; try reflexivity.
    destruct (get_jacobian_np (dyn p) trajectory controls) as [[A B]| |];
      reflexivity.
Qed.

(** ** The node *)

(** C9: whatever was written to the policy channel before, after
    [stop_planning_cb] the next read of the channel gives no value, its
    new-data flag is down, and the planner is marked not ready. *)
Theorem stop_resets_policy_channel (n : node) (writes : list Policy) :
  fst (stop_planning_cb
         (with_policy_buffer
            (fold_left (fun b pol => writeFromNonRT pol b) writes
               (policy_buffer n)) n)) = Ok tt
  /\ fst (readFromRT
            (policy_buffer
               (snd (stop_planning_cb
                       (with_policy_buffer
                          (fold_left (fun b pol => writeFromNonRT pol b) writes
                             (policy_buffer n)) n))))) = None
  /\ new_data_available
       (policy_buffer
          (snd (stop_planning_cb
                  (with_policy_buffer
                     (fold_left (fun b pol => writeFromNonRT pol b) writes
                        (policy_buffer n)) n)))) = false
  /\ planner_ready
       (snd (stop_planning_cb
               (with_policy_buffer
                  (fold_left (fun b pol => writeFromNonRT pol b) writes
                     (policy_buffer n)) n))) = false.
Proof. repeat split. Qed.

(** [start_planning_cb] marks the planner ready and leaves the policy
    channel as it is. *)
Lemma start_marks_ready (n : node) :
  planner_ready (snd (start_planning_cb n)) = true
  /\ policy_buffer (snd (start_planning_cb n)) = policy_buffer n.
Proof. split; reflexivity. Qed.

(** The condition of line 545 does not read the clock: whenever the value
    of [t_last_replan] exceeds the interval, every new state sample
    passes it. *)
Lemma replan_guard_after_replan (n : node) (l : locals) :
  new_data_available (plan_state_buffer n) = true ->
  planner_ready n = true ->
  Np.ltb (replan_dt n) (t_last_replan l) = true ->
  replan_guard n l = true.
Proof. unfold replan_guard. intros -> -> ->. reflexivity. Qed.

(** Against [ILQR.plan] of ilqr.py itself, which takes no keyword
    [verbose], the first pass that replans ends the thread. *)
Lemma thread_stops_at_first_replan :
  fst (thread_pass rostime_10ms no_warm_start plan_with_verbose
         {| index := 0; t_last_replan := 11 # 100 |} node0)
  = Raise TypeError.
Proof. vm_compute. reflexivity. Qed.

(** * Further properties *)

Import Warmup Callbacks ControlThread Terms Samples.

Lemma call_Ok_inv {A : Type} (callee : string) (args : list ndarray)
    (answer : result A) (h h' : heap) (a : A) :
  call callee args answer h = (Ok a, h') ->
  answer = Ok a /\ self h' = self h.
Proof.
  unfold call, emit, modify, bindM, lift. intros H. injection H as -> <-.
  split; reflexivity.
Qed.

Lemma plan_loop_Ok (fuel : nat) (path_refs : ndarray) (obs_refs : list ndarray)
    (J : Q) (b : bool) (cur cur' : ndarray * ndarray * Q) (h h' : heap) :
  whileM fuel (fun _ => b) (plan_body fuel path_refs obs_refs J) cur h
  = (Ok cur', h') -> b = false /\ cur' = cur.
Proof.
  rewrite plan_loop. destruct b, fuel; intros H; try discriminate;
    injection H as <- _; auto.
Qed.

(** What a dictionary that [plan] returns is made of. *)
Lemma plan_Ok_inv (time_time : nat -> Q) (fuel : nat)
    (init_state : ndarray) (controls : option ndarray) (h : heap) (d : dict) :
  fst (plan time_time fuel init_state controls h) = Ok d ->
  (ref_path (self h) = None /\ d = [("status"%string, PyInt (-1))])
  \/ (exists trajectory controls' path_refs obs_refs J t_process,
        rollout_nominal_np (dyn (self h)) init_state
          (first_controls (self h) controls) = Ok (trajectory, controls')
        /\ get_traj_cost (cost (self h)) trajectory controls' path_refs
             obs_refs = Ok J
        /\ (Np.ltb J (tol (self h)) && Np.ltb (- tol (self h)) J = false)
        /\ d = [("t_process"%string, PyFloat t_process);
                ("trajectory"%string, PyArray trajectory);
                ("controls"%string, PyArray controls');
                ("status"%string, PyNone);
                ("K_closed_loop"%string, PyNone);
                ("k_open_loop"%string, PyNone)]).
Proof.
  destruct (plan time_time fuel init_state controls h) as [r h'] eqn:H.
  cbn [fst]. intros ->.
  unfold plan in H. rewrite bindM_get in H.
  destruct (ref_path (self h)) as [rp|] eqn:Hrp.
  - right. inv_meth H.
    apply plan_loop_Ok in E5. destruct E5 as [Hb Hc]. injection Hc as -> -> _.
    apply call_Ok_inv in E1. destruct E1 as [E1 _].
    apply call_Ok_inv in E3. destruct E3 as [E3 _].
    injection H as <- _.
    exists n, n0, n1, l, v1, (Qred (v3 - v0)).
    assert (Hv : v = first_controls (self h) controls).
    { destruct controls as [c|]; simpl in *.
      - inv_bindM E.
        match type of E with
        | (if ?b then _ else _) _ = _ => destruct b; [|discriminate]
        end.
        unfold ret in E. injection E as <- _. reflexivity.
      - unfold ret in E. injection E as <- _. reflexivity. }
    subst v. repeat split; try reflexivity; assumption.
  - left. inv_meth H. injection H as <- _. split; reflexivity.
Qed.

(** X3: when a reference path is set and [plan] returns, the dictionary
    holds the trajectory and the controls of the first rollout from the
    warm start (zeros when none is given), the cost that the cost model
    gives this rollout lies outside (-tol, tol), and status and both
    gains are None. *)
Theorem plan_returns_first_rollout (time_time : nat -> Q) (fuel : nat)
    (init_state : ndarray) (controls : option ndarray) (h : heap)
    (rp : RefPath) (d : dict) :
  ref_path (self h) = Some rp ->
  fst (plan time_time fuel init_state controls h) = Ok d ->
  exists trajectory controls' path_refs obs_refs J,
    rollout_nominal_np (dyn (self h)) init_state
      (first_controls (self h) controls) = Ok (trajectory, controls')
    /\ get_traj_cost (cost (self h)) trajectory controls' path_refs obs_refs
       = Ok J
    /\ (Np.ltb J (tol (self h)) && Np.ltb (- tol (self h)) J = false)
    /\ getitem d "trajectory" = Ok (PyArray trajectory)
    /\ getitem d "controls" = Ok (PyArray controls')
    /\ getitem d "status" = Ok PyNone
    /\ getitem d "K_closed_loop" = Ok PyNone
    /\ getitem d "k_open_loop" = Ok PyNone.
Proof.
  intros Hrp H. apply plan_Ok_inv in H.
  destruct H as [[Hnone _]|(tr & c & pr & ob & J & t & Hroll & HJ & Hb & ->)].
  - rewrite Hrp in Hnone. discriminate.
  - exists tr, c, pr, ob, J. repeat split; try reflexivity; assumption.
Qed.

Lemma plan_returns_first_rollout_witness :
  ref_path (self (fresh (toy_ilqr 5 2 5 1 (Some echo_path)))) = Some echo_path
  /\ exists d,
       fst (plan clock 5 start_state None
              (fresh (toy_ilqr 5 2 5 1 (Some echo_path)))) = Ok d
       /\ exists trajectory controls' path_refs obs_refs J,
            rollout_nominal_np (dyn (toy_ilqr 5 2 5 1 (Some echo_path)))
              start_state
              (first_controls (toy_ilqr 5 2 5 1 (Some echo_path)) None)
            = Ok (trajectory, controls')
            /\ get_traj_cost (cost (toy_ilqr 5 2 5 1 (Some echo_path)))
                 trajectory controls' path_refs obs_refs = Ok J
            /\ (Np.ltb J (1 # 1000) && Np.ltb (- (1 # 1000)) J = false)
            /\ getitem d "trajectory" = Ok (PyArray trajectory)
            /\ getitem d "controls" = Ok (PyArray controls')
            /\ getitem d "status" = Ok PyNone
            /\ getitem d "K_closed_loop" = Ok PyNone
            /\ getitem d "k_open_loop" = Ok PyNone.
Proof.
  split; [reflexivity|].
  destruct (fst (plan clock 5 start_state None
                   (fresh (toy_ilqr 5 2 5 1 (Some echo_path))))) as [d| |] eqn:E;
    try (vm_compute in E; discriminate).
  exists d. split; [reflexivity|].
  exact (@plan_returns_first_rollout clock 5 start_state None
           (fresh (toy_ilqr 5 2 5 1 (Some echo_path))) echo_path d eq_refl E).
Defined.

Lemma bindM_step {S A B : Type} (c : M S A) (k : A -> M S B) (s s1 : S) (a : A) :
  c s = (Ok a, s1) -> bindM c k s = k a s1.
Proof. unfold bindM. intros ->. reflexivity. Qed.

Lemma call_run {A : Type} (callee : string) (args : list ndarray)
    (answer : result A) (h : heap) :
  call callee args answer h = (answer, logged (Call callee args) h).
Proof. reflexivity. Qed.

Lemma get_references_run (trajectory xy path_refs : ndarray)
    (obs_refs : list ndarray) (rp : RefPath) (n : nat) (h : heap) :
  ref_path (self h) = Some rp ->
  Np.shape_at trajectory 1 = Ok n ->
  Np.head_slice 2 trajectory = Ok xy ->
  get_reference rp xy = Ok path_refs ->
  check_collisions (collision_checker (self h)) trajectory
    (obstacle_list (self h)) = Ok obs_refs ->
  get_references trajectory h
  = (Ok (path_refs, obs_refs),
     logged (Call "collision_checker.check_collisions" [trajectory])
       (logged (Call "ref_path.get_reference" [xy]) h)).
Proof.
  intros Hrp Hn Hxy Hpath Hobs. unfold get_references.
  rewrite bindM_get, Hrp.
  erewrite bindM_step.
  2:{ erewrite bindM_step
        by (unfold lift; rewrite Hn; cbn [bind]; rewrite Hxy; reflexivity).
      rewrite call_run, Hpath. reflexivity. }
  erewrite bindM_step by (rewrite call_run, Hobs; reflexivity).
  reflexivity.
Qed.

(** X4: when the collaborators answer and the cost of the first rollout lies
    strictly between -tol and tol, [plan] enters its loop and raises
    NameError (line 274 reads the unbound name alpha). *)
Theorem plan_raises_when_cost_within_tolerance (time_time : nat -> Q)
    (fuel : nat) (init_state : ndarray) (controls : option ndarray) (h : heap)
    (rp : RefPath) (trajectory controls' xy path_refs : ndarray)
    (obs_refs : list ndarray) (J : Q) (n m : nat) :
  ref_path (self h) = Some rp ->
  (match controls with
   | Some c => Np.shape_at c 1 = Ok (T (self h))
   | None => True
   end) ->
  rollout_nominal_np (dyn (self h)) init_state
    (first_controls (self h) controls) = Ok (trajectory, controls') ->
  Np.shape_at trajectory 1 = Ok n ->
  Np.head_slice 2 trajectory = Ok xy ->
  get_reference rp xy = Ok path_refs ->
  check_collisions (collision_checker (self h)) trajectory
    (obstacle_list (self h)) = Ok obs_refs ->
  get_traj_cost (cost (self h)) trajectory controls' path_refs obs_refs = Ok J ->
  Np.shape_at controls' 1 = Ok m ->
  - tol (self h) < J -> J < tol (self h) ->
  fst (plan time_time (S fuel) init_state controls h) = Raise NameError.
Proof.
  intros Hrp Hc Hroll Hn Hxy Hpath Hobs HJ Hm Hlo Hhi.
  assert (Hcond : Np.ltb J (tol (self h)) && Np.ltb (- tol (self h)) J = true).
  { unfold Np.ltb. apply andb_true_iff. split; apply negb_true_iff;
      apply not_true_iff_false; rewrite Qle_bool_iff; lra. }
  unfold plan. rewrite bindM_get, Hrp.
  erewrite bindM_step with (a := first_controls (self h) controls) (s1 := h).
  2:{ destruct controls as [c|]; [|reflexivity].
      unfold bindM, lift. rewrite Hc, Nat.eqb_refl. reflexivity. }
  erewrite bindM_step by reflexivity.
  erewrite bindM_step by (rewrite call_run, Hroll; reflexivity).
  cbv beta iota.
  erewrite bindM_step
    by (eapply get_references_run; [exact Hrp | exact Hn | exact Hxy
                                   | exact Hpath | exact Hobs]).
  cbv beta iota.
  erewrite bindM_step by (rewrite call_run; cbn [self]; rewrite HJ; reflexivity).
  erewrite bindM_step by (unfold lift; rewrite Hm; reflexivity).
  unfold bindM at 1. rewrite plan_loop, Hcond. reflexivity.
Qed.


Ltac finish :=
  unfold finished;
  repeat match goal with
         | |- context [match ?x with _ => _ end] => destruct x
         | |- context [if ?x then _ else _] => destruct x
         end; discriminate.

Lemma take_finished (k i : nat) (a : ndarray) : finished (Np.take k i a).
Proof. unfold Np.take. finish. Qed.

Lemma elementwise_finished (f : Q -> Q -> Q) (a b : ndarray) :
  finished (Np.elementwise f a b).
Proof. unfold Np.elementwise. finish. Qed.

Lemma matmul_finished (a b : ndarray) : finished (Np.matmul a b).
Proof. unfold Np.matmul. finish. Qed.

Lemma bind_raises {A B : Type} (r : result A) (k : A -> result B) :
  finished r -> (forall a, r = Ok a -> exists e, k a = Raise e) ->
  exists e, bind r k = Raise e.
Proof.
  intros Hf Hk. destruct r as [a|e|]; simpl.
  - apply Hk. reflexivity.
  - exists e. reflexivity.
  - exfalso. apply Hf. reflexivity.
Qed.

Lemma bind_finished {A B : Type} (r : result A) (k : A -> result B) :
  finished r -> (forall a, finished (k a)) -> finished (bind r k).
Proof.
  intros Hf Hk. destruct r as [a|e|]; simpl.
  - apply Hk.
  - discriminate.
  - exfalso. apply Hf. reflexivity.
Qed.

(** Line 169 with a float [lam]: [lam@np.identity(n)] has no product. *)
Lemma regularized_float_raises (P : ndarray) (x : Q) :
  exists e, regularized P (Np.scalar x) = Raise e.
Proof.
  unfold regularized, Np.shape_at.
  destruct (nth_error (Np.shape P) 0); simpl; eexists; reflexivity.
Qed.

Lemma bp_body_float_lam_raises (eig_big : ndarray -> bool) (o : ILQR)
    (d : derivatives) (A B alpha : ndarray) (st : bp_state) (x : Q) :
  l_lam st = Np.scalar x ->
  exists e, bp_body eig_big o d A B alpha st = Raise e.
Proof.
  intros Hlam. unfold bp_body. cbv zeta. rewrite Hlam.
  repeat (apply bind_raises;
          [ first [ apply take_finished
                  | repeat (apply bind_finished;
                            [first [apply matmul_finished | apply elementwise_finished]|intros ?]);
                    first [apply matmul_finished | apply elementwise_finished] ]
          | intros ? _ ]).
  destruct (regularized_float_raises (l_P st) x) as [e He].
  rewrite He. exists e. reflexivity.
Qed.

(** X5: with a float regularization [lam], as [reg_init] is, [backward_pass]
    raises whenever its two collaborators answer or raise: line 169
    multiplies a float by a matrix with the operator of matrix products. *)
Theorem backward_pass_float_lam_raises (eig_big : ndarray -> bool) (fuel : nat)
    (trajectory controls path_refs : ndarray) (obs_refs : list ndarray)
    (alpha b : ndarray) (x : Q) (h : heap) :
  finished (get_derivatives_np (cost (self h)) trajectory controls path_refs
              obs_refs) ->
  finished (get_jacobian_np (dyn (self h)) trajectory controls) ->
  exists e,
    fst (backward_pass eig_big (S fuel) trajectory controls path_refs obs_refs
           alpha b (Np.scalar x) h) = Raise e.
Proof.
  intros Hd HJ. unfold backward_pass. rewrite bindM_get.
  unfold bindM at 1. rewrite call_run.
  destruct (get_derivatives_np (cost (self h)) trajectory controls path_refs
              obs_refs) as [d|e|]; [|exists e; reflexivity|exfalso; apply Hd; reflexivity].
  unfold bindM at 1. rewrite call_run.
  destruct (get_jacobian_np (dyn (self h)) trajectory controls)
    as [[A B]|e|]; [|exists e; reflexivity|exfalso; apply HJ; reflexivity].
  unfold lift. cbn [fst].
  apply bind_raises.
  { unfold bp_init. apply bind_finished; [apply take_finished|intros p].
    apply bind_finished; [apply take_finished|intros P]. discriminate. }
  intros st0 Hinit.
  assert (Hlam : l_lam st0 = Np.scalar x).
  { unfold bp_init in Hinit. do 2 inv_bind Hinit. injection Hinit as <-. reflexivity. }
  assert (HK : l_Kt st0 = None).
  { unfold bp_init in Hinit. do 2 inv_bind Hinit. injection Hinit as <-. reflexivity. }
  cbn [while].
  destruct (0 <=? l_t st0)%Z.
  - destruct (bp_body_float_lam_raises eig_big (self h) d A B alpha st0 Hlam) as [e He].
    rewrite He. exists e. reflexivity.
  - cbn [bind]. unfold bp_return. rewrite HK. eexists. reflexivity.
Qed.

(** *** The planning thread *)

Lemma thread_pass_idle (get_rostime : nat -> Q)
    (get_ref_controls : Policy -> Q -> result (option ndarray))
    (planner_plan : ILQR -> ndarray -> option ndarray -> result dict * ILQR)
    (l : locals) (n : node) :
  replan_guard n l = false ->
  thread_pass get_rostime get_ref_controls planner_plan l n
  = (Ok {| index := index l;
           t_last_replan := Qred (t_last_replan l + (1 # 100)) |},
     with_seen (seen n ++ [Slept (1 # 100)]) (clock_ticks n) n).
Proof.
  intros Hg. unfold thread_pass. rewrite bindM_get, Hg. reflexivity.
Qed.

(** X6: while the planner is not ready or no new state sample is in the
    buffer, k passes of the planning thread only sleep: the leg index
    stays, t_last_replan grows by 0.01 per pass, the buffers and the
    planner are untouched. *)
Theorem thread_idle_without_sample_or_readiness (get_rostime : nat -> Q)
    (get_ref_controls : Policy -> Q -> result (option ndarray))
    (planner_plan : ILQR -> ndarray -> option ndarray -> result dict * ILQR)
    (k : nat) (l : locals) (n : node) :
  new_data_available (plan_state_buffer n) && planner_ready n = false ->
  thread_passes get_rostime get_ref_controls planner_plan k l n
  = (Ok {| index := index l;
           t_last_replan := idle_time k (t_last_replan l) |},
     with_seen (seen n ++ repeat (Slept (1 # 100)) k) (clock_ticks n) n).
Proof.
  revert l n. induction k as [|k IH]; intros l n H.
  - cbn [thread_passes repeat]. rewrite app_nil_r.
    destruct l, n; reflexivity.
  - cbn [thread_passes].
    erewrite bindM_step.
    2:{ apply thread_pass_idle. unfold replan_guard.
        destruct (new_data_available (plan_state_buffer n)),
          (planner_ready n); try discriminate; try reflexivity.
        rewrite andb_false_r. reflexivity. }
    rewrite IH by exact H.
    unfold idle_time. rewrite Nat.iter_succ_r. cbn [index t_last_replan].
    f_equal. unfold with_seen. cbn. rewrite <- app_assoc. reflexivity.
Qed.

Lemma publish_policy_skips (replan : dict) (status : pyobj) (t_now : Q) (n : node) :
  getitem replan "status" = Ok status ->
  eq_zero status = Ok false ->
  publish_policy replan t_now n = (Ok tt, n).
Proof.
  intros Hs Hz. unfold publish_policy.
  erewrite bindM_step by (unfold lift; rewrite Hs; reflexivity).
  erewrite bindM_step by (unfold lift; rewrite Hz; reflexivity).
  reflexivity.
Qed.

(** X7: when lines 561-573 return, the leg index was a position of
    goal_path, and it either stays with the path buffer unchanged or
    moves on by one with the next leg of total_path written to the path
    buffer. *)
Theorem next_leg_keeps_index_in_range (x_pos y_pos : Q) (idx idx' : nat)
    (n n' : node) :
  next_leg x_pos y_pos idx n = (Ok idx', n') ->
  (idx < length (goal_path n))%nat
  /\ ((idx' = idx /\ path_buffer n' = path_buffer n)
      \/ (idx' = S idx
          /\ exists rp, nth_error (total_path n) (S idx) = Some rp
                        /\ path_buffer n' = writeFromNonRT rp (path_buffer n))).
Proof.
  intros H. unfold next_leg in H. rewrite bindM_get in H.
  inv_bindM H.
  destruct (nth_error (goal_path n) idx) as [g|] eqn:Hg; [|discriminate].
  split; [apply nth_error_Some; rewrite Hg; discriminate|].
  unfold lift in E. injection E as <- <-.
  inv_bindM H. destruct v as [gx gy].
  unfold lift in E. injection E as _ <-.
  match type of H with (if ?c then _ else _) _ = _ => destruct c end.
  - inv_bindM H. unfold note, modify in E. injection E as _ <-.
    rewrite Nat.add_1_r in H.
    destruct (nth_error (total_path n) (S idx)) as [rp|] eqn:Hrp.
    + inv_meth H. unfold ret in H. injection H as <- <-.
      unfold modify in E. injection E as _ <-.
      unfold note, modify in E0. injection E0 as _ <-.
      right. split; [lia|]. exists rp. split; reflexivity.
    + inv_meth H. unfold ret in H. injection H as <- <-.
      unfold note, modify in E. injection E as _ <-.
      left. split; reflexivity.
  - unfold ret in H. injection H as <- <-. left. split; reflexivity.
Qed.

(** X8: a dictionary that [ILQR.plan] returns never has status 0, so lines
    586-600 of the planning thread publish no policy for it and leave
    the node as it is. *)
Theorem plan_result_never_published (time_time : nat -> Q) (fuel : nat)
    (init_state : ndarray) (controls : option ndarray) (h : heap) (d : dict)
    (t_now : Q) (n : node) :
  fst (plan time_time fuel init_state controls h) = Ok d ->
  publish_policy d t_now n = (Ok tt, n).
Proof.
  intros H. apply plan_Ok_inv in H.
  destruct H as [[_ ->]|(tr & c & pr & ob & J & t & _ & _ & _ & ->)];
    eapply publish_policy_skips; reflexivity.
Qed.

Lemma plan_raises_when_cost_within_tolerance_witness :
  - tol (toy_ilqr 5 2 0 1 (Some echo_path)) < 0
  /\ 0 < tol (toy_ilqr 5 2 0 1 (Some echo_path))
  /\ fst (plan clock 1 start_state None
            (fresh (toy_ilqr 5 2 0 1 (Some echo_path)))) = Raise NameError.
Proof.
  split; [reflexivity|]. split; [reflexivity|].
  eapply (@plan_raises_when_cost_within_tolerance clock 0 start_state None
            (fresh (toy_ilqr 5 2 0 1 (Some echo_path))) echo_path
            _ _ _ _ _ 0 2 2);
    first [reflexivity | exact I].
Defined.

Lemma backward_pass_float_lam_raises_witness :
  finished (get_derivatives_np (cost (toy_ilqr 5 2 5 1 (Some echo_path)))
              nominal_trajectory nominal_controls references [])
  /\ finished (get_jacobian_np (dyn (toy_ilqr 5 2 5 1 (Some echo_path)))
                 nominal_trajectory nominal_controls)
  /\ exists e,
       fst (backward_pass no_oracle 1 nominal_trajectory nominal_controls
              references [] (Np.scalar 10) (Np.scalar (1 # 2)) (Np.scalar 1)
              (fresh (toy_ilqr 5 2 5 1 (Some echo_path)))) = Raise e.
Proof.
  assert (H1 : finished (get_derivatives_np
                           (cost (toy_ilqr 5 2 5 1 (Some echo_path)))
                           nominal_trajectory nominal_controls references []))
    by discriminate.
  assert (H2 : finished (get_jacobian_np
                           (dyn (toy_ilqr 5 2 5 1 (Some echo_path)))
                           nominal_trajectory nominal_controls))
    by discriminate.
  split; [exact H1|]. split; [exact H2|].
  exact (@backward_pass_float_lam_raises no_oracle 0 nominal_trajectory
           nominal_controls references [] (Np.scalar 10) (Np.scalar (1 # 2)) 1
           (fresh (toy_ilqr 5 2 5 1 (Some echo_path))) H1 H2).
Defined.

Lemma thread_idle_without_sample_or_readiness_witness :
  new_data_available (plan_state_buffer (with_ready false node0))
  && planner_ready (with_ready false node0) = false
  /\ thread_passes rostime_10ms no_warm_start giving_up 3
       {| index := 0; t_last_replan := 0 |} (with_ready false node0)
     = (Ok {| index := 0; t_last_replan := idle_time 3 0 |},
        with_seen (seen (with_ready false node0) ++ repeat (Slept (1 # 100)) 3)
          (clock_ticks (with_ready false node0)) (with_ready false node0)).
Proof.
  split; [reflexivity|].
  exact (@thread_idle_without_sample_or_readiness rostime_10ms no_warm_start
           giving_up 3 {| index := 0; t_last_replan := 0 |}
           (with_ready false node0) eq_refl).
Defined.

Lemma next_leg_keeps_index_in_range_witness :
  exists idx' n',
    next_leg 3 0.15 0 node0 = (Ok idx', n')
    /\ (0 < length (goal_path node0))%nat
    /\ ((idx' = 0%nat /\ path_buffer n' = path_buffer node0)
        \/ (idx' = 1%nat
            /\ exists rp, nth_error (total_path node0) 1 = Some rp
                          /\ path_buffer n'
                             = writeFromNonRT rp (path_buffer node0))).
Proof.
  destruct (next_leg 3 0.15 0 node0) as [[idx'| |] n'] eqn:E;
    try (vm_compute in E; discriminate).
  exists idx', n'. split; [reflexivity|].
  exact (@next_leg_keeps_index_in_range 3 0.15 0 idx' node0 n' E).
Defined.

Lemma plan_result_never_published_witness :
  exists d,
    fst (plan clock 5 start_state None
           (fresh (toy_ilqr 5 2 5 1 (Some echo_path)))) = Ok d
    /\ publish_policy d 1000 node0 = (Ok tt, node0).
Proof.
  destruct (fst (plan clock 5 start_state None
                   (fresh (toy_ilqr 5 2 5 1 (Some echo_path))))) as [d| |] eqn:E;
    try (vm_compute in E; discriminate).
  exists d. split; [reflexivity|].
  exact (@plan_result_never_published clock 5 start_state None
           (fresh (toy_ilqr 5 2 5 1 (Some echo_path))) d 1000 node0 E).
Defined.

(** *** The planning thread against the optimizer of ilqr.py *)




Lemma bindM_raise {S A B : Type} (c : M S A) (k : A -> M S B) (s s1 : S) (e : exn) :
  c s = (Raise e, s1) -> bindM c k s = (Raise e, s1).
Proof. unfold bindM. intros ->. reflexivity. Qed.

(** *** [reconfigure_callback] *)

(** X9: with the lock free and a latency in the configuration,
    [reconfigure_callback] stores that latency whatever its sign (a
    negative one only adds a warning), releases the lock and returns the
    configuration as given. *)
Theorem reconfigure_stores_any_latency (config : list (string * Q)) (v : Q)
    (s : tuning) :
  update_lock s = false ->
  config_get config "latency" = Ok v ->
  reconfigure_callback config s
  = (Ok config,
     {| update_lock := false; latency := v;
        tuning_log := tuning_log s ++ latency_log v |}).
Proof.
  intros Hl Hv. unfold reconfigure_callback, bindM, acquire, lift, modify,
    tuning_note, release, ret, latency_log.
  rewrite Hl, Hv. cbn. destruct (Np.ltb v 0); cbn; rewrite <- ?app_assoc; reflexivity.
Qed.

(** X10: a configuration without the key latency makes
    [reconfigure_callback] raise KeyError with the lock still held and
    the latency unchanged, and the next call then waits for the lock
    without end. *)
Theorem reconfigure_without_key_keeps_lock (config config' : list (string * Q))
    (s : tuning) :
  update_lock s = false ->
  config_get config "latency" = Raise KeyError ->
  reconfigure_callback config s
  = (Raise KeyError,
     {| update_lock := true; latency := latency s; tuning_log := tuning_log s |})
  /\ fst (reconfigure_callback config'
            (snd (reconfigure_callback config s))) = OutOfFuel.
Proof.
  intros Hl Hv.
  assert (H : reconfigure_callback config s
              = (Raise KeyError,
                 {| update_lock := true; latency := latency s;
                    tuning_log := tuning_log s |})).
  { unfold reconfigure_callback, bindM, acquire, lift. rewrite Hl, Hv. reflexivity. }
  split; [exact H|]. rewrite H. reflexivity.
Qed.

(** *** [obstacle_callback] *)

Lemma dict_get_set {V : Type} (d : list (Z * V)) (k k' : Z) (v : V) :
  dict_get (dict_set k v d) k' = if Z.eqb k k' then Some v else dict_get d k'.
Proof.
  induction d as [|[k0 v0] d IH]; simpl.
  - reflexivity.
  - destruct (Z.eqb k0 k) eqn:E0; simpl.
    + apply Z.eqb_eq in E0. subst k0.
      destruct (Z.eqb k k'); reflexivity.
    + destruct (Z.eqb k0 k') eqn:E1.
      * apply Z.eqb_eq in E1. subst k0.
        rewrite Z.eqb_sym in E0. rewrite E0. reflexivity.
      * exact IH.
Qed.

Lemma find_last {A : Type} (f : A -> bool) (l : list A) (x : A) :
  find f (l ++ [x])
  = match find f l with Some y => Some y | None => if f x then Some x else None end.
Proof.
  induction l as [|y l IH]; simpl; [reflexivity|].
  destruct (f y); [reflexivity | exact IH].
Qed.

Section ObstacleFacts.

Variable Marker : Type.
Variable get_obstacle_vertices : Marker -> result (Z * ndarray).

(** X11: after [obstacle_callback] returns, the dictionary holds for every
    identifier the vertices of the last marker of the message with that
    identifier, and its earlier entry when no marker has it. *)
Theorem obstacle_callback_last_writer_wins (markers : list Marker)
    (d d' : list (Z * ndarray)) :
  obstacle_callback get_obstacle_vertices markers d = (Ok tt, d') ->
  exists ivs,
    Forall2 (fun m iv => get_obstacle_vertices m = Ok iv) markers ivs
    /\ forall id,
         dict_get d' id
         = match find (fun iv => Z.eqb (fst iv) id) (rev ivs) with
           | Some iv => Some (snd iv)
           | None => dict_get d id
           end.
Proof.
  unfold obstacle_callback. revert d.
  induction markers as [|m ms IH]; intros d H.
  - cbn in H. injection H as <-. exists []. split; [constructor|reflexivity].
  - cbn [for_each] in H. inv_bindM H. inv_bindM E. destruct v0 as [id vert].
    unfold lift in E0. injection E0 as E0 <-.
    unfold modify in E. injection E as _ <-. destruct v.
    apply IH in H. destruct H as (ivs & HF & Hget).
    exists ((id, vert) :: ivs). split; [constructor; assumption|].
    intros id'. rewrite Hget. cbn [rev]. rewrite find_last.
    destruct (find (fun iv => (fst iv =? id')%Z) (rev ivs)); [reflexivity|].
    rewrite dict_get_set. cbn [fst snd]. destruct (id =? id')%Z; reflexivity.
Qed.

End ObstacleFacts.

Lemma reconfigure_stores_any_latency_witness :
  update_lock idle_tuning = false
  /\ config_get [("latency"%string, - (1 # 10))] "latency" = Ok (- (1 # 10))
  /\ reconfigure_callback [("latency"%string, - (1 # 10))] idle_tuning
     = (Ok [("latency"%string, - (1 # 10))],
        {| update_lock := false; latency := - (1 # 10);
           tuning_log := tuning_log idle_tuning ++ latency_log (- (1 # 10)) |}).
Proof.
  split; [reflexivity|]. split; [reflexivity|].
  exact (@reconfigure_stores_any_latency [("latency"%string, - (1 # 10))]
           (- (1 # 10)) idle_tuning eq_refl eq_refl).
Defined.

Lemma reconfigure_without_key_keeps_lock_witness :
  update_lock idle_tuning = false
  /\ config_get [] "latency" = Raise KeyError
  /\ reconfigure_callback [] idle_tuning
     = (Raise KeyError,
        {| update_lock := true; latency := latency idle_tuning;
           tuning_log := tuning_log idle_tuning |})
  /\ fst (reconfigure_callback [("latency"%string, 0)]
            (snd (reconfigure_callback [] idle_tuning))) = OutOfFuel.
Proof.
  split; [reflexivity|]. split; [reflexivity|].
  exact (@reconfigure_without_key_keeps_lock [] [("latency"%string, 0)]
           idle_tuning eq_refl eq_refl).
Defined.

Lemma obstacle_callback_last_writer_wins_witness :
  exists d',
    obstacle_callback marker_of
      [(1%Z, corner 1); (2%Z, corner 2); (1%Z, corner 3)] [] = (Ok tt, d')
    /\ exists ivs,
         Forall2 (fun m iv => marker_of m = Ok iv)
           [(1%Z, corner 1); (2%Z, corner 2); (1%Z, corner 3)] ivs
         /\ forall id,
              dict_get d' id
              = match find (fun iv => Z.eqb (fst iv) id) (rev ivs) with
                | Some iv => Some (snd iv)
                | None => dict_get [] id
                end.
Proof.
  exists [(1%Z, corner 3); (2%Z, corner 2)].
  split; [reflexivity|].
  exact (@obstacle_callback_last_writer_wins _ marker_of
           [(1%Z, corner 1); (2%Z, corner 2); (1%Z, corner 3)] []
           [(1%Z, corner 3); (2%Z, corner 2)] eq_refl).
Defined.

(** *** The control thread *)

Lemma ltb_true (x y : Q) : Np.ltb x y = true -> x < y.
Proof.
  unfold Np.ltb. intros H. apply negb_true_iff in H.
  apply Qnot_le_lt. intros Hle. apply Qle_bool_iff in Hle. congruence.
Qed.

Lemma ltb_false (x y : Q) : Np.ltb x y = false -> y <= x.
Proof.
  unfold Np.ltb. intros H. apply negb_false_iff in H.
  apply Qle_bool_iff. exact H.
Qed.

Lemma py_max_lower (a b : Q) : a <= py_max a b.
Proof.
  unfold py_max. destruct (Np.ltb a b) eqn:E.
  - apply Qlt_le_weak, ltb_true, E.
  - apply Qle_refl.
Qed.

Lemma clip_range (lo hi x : Q) :
  lo <= hi -> lo <= py_max lo (py_min hi x) /\ py_max lo (py_min hi x) <= hi.
Proof.
  intros H. split; [apply py_max_lower|].
  unfold py_max, py_min.
  destruct (Np.ltb x hi) eqn:E1.
  - destruct (Np.ltb lo x) eqn:E2; [apply Qlt_le_weak, ltb_true, E1 | exact H].
  - destruct (Np.ltb lo hi) eqn:E2; [apply Qle_refl | exact H].
Qed.

Section ThreadFacts.

Variable Quaternion : Type.
Variables np_cos np_sin np_tan : Q -> Q.
Variable euler_yaw : Quaternion -> Q.
Variable get_rostime : nat -> Q.
Variable get_policy :
  Policy -> Q -> result (option (ndarray * ndarray * ndarray)).
Variable get_policy_by_state :
  Policy -> option State -> result (option (ndarray * ndarray * ndarray)).
Variable pwm_convert : Q -> Q -> Q -> result (Q * Q).



Lemma untouched_refl (c : controller Quaternion) : untouched c c.
Proof. repeat split. Qed.

Lemma untouched_trans (c1 c2 c3 : controller Quaternion) :
  untouched c1 c2 -> untouched c2 c3 -> untouched c1 c3.
Proof.
  intros (A1 & A2 & A3 & A4) (B1 & B2 & B3 & B4).
  repeat split; congruence.
Qed.

Lemma acting_time_untouched (c c' : controller Quaternion) (t : Q) :
  acting_time get_rostime c = (Ok t, c') -> untouched c c'.
Proof.
  unfold acting_time. rewrite bindM_get.
  destruct (simulation c) eqn:Es.
  - unfold ctl_rostime. intros H. injection H as _ <-. repeat split.
  - intros H. inv_meth H.
    unfold ctl_acquire in E. destruct (c_update_lock c); [discriminate|].
    injection E as _ <-. unfold ctl_rostime in E0. injection E0 as _ <-.
    unfold modify in E1. injection E1 as _ <-.
    unfold ret in H. injection H as _ <-. repeat split.
Qed.

Lemma predict_state_untouched (l : ctl_locals) (t_act : Q)
    (c c' : controller Quaternion) (r : option State * list Command * option Q) :
  predict_state np_cos np_sin np_tan euler_yaw l t_act c = (Ok r, c') ->
  untouched c c'.
Proof.
  unfold predict_state. rewrite bindM_get.
  destruct (new_data_available (c_control_state_buffer c)).
  - intros H. inv_bindM H. cbn in E. injection E as <- <-.
    destruct (stored (c_control_state_buffer c)) as [msg|]; [|discriminate].
    destruct (drop_old _ _ _) as [u queue].
    destruct (replay _ _ _ _ _ _ _) as [[sc u'] dt].
    inv_bindM H. unfold modify in E. injection E as _ <-.
    unfold ret in H. injection H as _ <-. repeat split.
  - destruct (prev_state l); unfold ret; intros H; injection H as _ <-;
      repeat split.
Qed.


Lemma command_steer_clipped (policy : option Policy) (l : ctl_locals)
    (sc : option State) (dt : option Q) (t : Q) (c c' : controller Quaternion)
    (a s : Q) :
  command_from_policy get_policy get_policy_by_state policy l sc dt t c
  = (Ok (a, s), c') ->
  - 0.37 <= s /\ s <= 0.37.
Proof.
  unfold command_from_policy. rewrite bindM_get.
  destruct policy as [pol|].
  - intros H. inv_bindM H. destruct v as [[[sr ur] K]|].
    + inv_bindM H. destruct v as [accel steer_rate].
      inv_meth H. unfold ret in H. injection H as _ <- _.
      apply clip_range. discriminate.
    + inv_meth H. unfold ret in H. injection H as _ <- _.
      split; discriminate.
  - unfold ret. intros H. injection H as _ <- _. split; discriminate.
Qed.

Lemma command_without_policy (l : ctl_locals) (sc : option State)
    (dt : option Q) (t : Q) (c : controller Quaternion) :
  command_from_policy get_policy get_policy_by_state None l sc dt t c
  = (Ok (- (5), 0), c).
Proof. reflexivity. Qed.

Lemma acting_time_keeps_odometry (c c' : controller Quaternion) (t : Q) :
  acting_time get_rostime c = (Ok t, c') ->
  c_control_state_buffer c' = c_control_state_buffer c.
Proof.
  unfold acting_time. rewrite bindM_get.
  destruct (simulation c) eqn:Es.
  - unfold ctl_rostime. intros H. injection H as _ <-. reflexivity.
  - intros H. inv_meth H.
    unfold ctl_acquire in E. destruct (c_update_lock c); [discriminate|].
    injection E as _ <-. unfold ctl_rostime in E0. injection E0 as _ <-.
    unfold modify in E1. injection E1 as _ <-.
    unfold ret in H. injection H as _ <-. reflexivity.
Qed.

Lemma command_keeps_odometry (policy : option Policy) (l : ctl_locals)
    (sc : option State) (dt : option Q) (t : Q) (c c' : controller Quaternion)
    (r : Q * Q) :
  command_from_policy get_policy get_policy_by_state policy l sc dt t c
  = (Ok r, c') ->
  c_control_state_buffer c' = c_control_state_buffer c.
Proof.
  unfold command_from_policy. rewrite bindM_get.
  destruct policy as [pol|].
  - intros H. inv_bindM H. unfold lift in E. injection E as _ <-.
    destruct v as [[[sr ur] K]|].
    + inv_bindM H. destruct v as [accel steer_rate].
      inv_meth H. unfold ret in H. injection H as _ <-.
      unfold lift in *.
      repeat match goal with
             | E : (_, _) = (_, _) |- _ => injection E as _ <-
             end.
      reflexivity.
    + inv_meth H. unfold ret in H. injection H as _ <-.
      unfold ctl_note, modify in *.
      repeat match goal with
             | E : (_, _) = (_, _) |- _ => injection E as _ <-
             end.
      reflexivity.
  - unfold ret. intros H. injection H as _ <-. reflexivity.
Qed.

Lemma predict_state_without_sample (l : ctl_locals) (t_act : Q)
    (c c' : controller Quaternion) (sc : option State) (queue : list Command)
    (dt : option Q) :
  new_data_available (c_control_state_buffer c) = false ->
  predict_state np_cos np_sin np_tan euler_yaw l t_act c
  = (Ok (sc, queue, dt), c') ->
  c' = c /\ queue = u_queue l.
Proof.
  intros Hnew. unfold predict_state. rewrite bindM_get, Hnew.
  destruct (prev_state l); unfold ret; intros H; injection H as _ <- _ <-;
    split; reflexivity.
Qed.

(** The steps of a pass that returns. *)
Lemma control_pass_Ok_inv (l l' : ctl_locals) (c c' : controller Quaternion) :
  control_pass np_cos np_sin np_tan euler_yaw get_rostime get_policy
    get_policy_by_state pwm_convert l c = (Ok l', c') ->
  exists t_act sc queue dt accel steer c1 c2 c3 thr st,
    untouched c c1
    /\ c_control_state_buffer c1 = c_control_state_buffer c
    /\ predict_state np_cos np_sin np_tan euler_yaw l t_act c1
       = (Ok (sc, queue, dt), c2)
    /\ command_from_policy get_policy get_policy_by_state
         (stored (c_policy_buffer c)) l sc dt t_act c2
       = (Ok (accel, steer), c3)
    /\ match simulation c3, sc with
       | false, Some s => pwm_convert accel steer (s_v s) = Ok (thr, st)
       | _, _ => thr = accel /\ st = steer
       end
    /\ c' = set_outputs
              (published c3
               ++ [{| header_stamp := get_rostime (c_ticks c3);
                      throttle := thr; servo_steer := st |}])
              (c_log c3) (S (c_ticks c3)) c3
    /\ l' = {| u_queue := queue ++ [{| u_accel := accel; u_steer := steer;
                                       u_t := t_act |}];
               prev_state := sc;
               prev_u := {| u_accel := accel; u_steer := steer; u_t := t_act |};
               dt_local := dt |}.
Proof.
  intros H. unfold control_pass in H.
  inv_bindM H. cbn in E. injection E as <- <-.
  inv_bindM H. apply acting_time_untouched in E as U1.
  apply acting_time_keeps_odometry in E as O1.
  inv_bindM H. destruct v0 as [[sc queue] dt].
  inv_bindM H. destruct v0 as [accel steer].
  rewrite bindM_get in H.
  inv_bindM H. destruct v0 as [thr st].
  inv_bindM H.
  assert (P : h2 = h1
              /\ match simulation h1, sc with
                 | false, Some s => pwm_convert accel steer (s_v s) = Ok (thr, st)
                 | _, _ => thr = accel /\ st = steer
                 end).
  { destruct (simulation h1); [|destruct sc as [s|]].
    - unfold ret in E2. injection E2 as <- <- <-. repeat split.
    - unfold lift in E2. injection E2 as E2 <-. split; [reflexivity|exact E2].
    - unfold ret in E2. injection E2 as <- <- <-. repeat split. }
  destruct P as [-> P].
  unfold ctl_rostime in E3. injection E3 as <- <-.
  inv_bindM H. unfold publish, modify in E3. injection E3 as _ <-.
  unfold ret in H. injection H as <- <-.
  exists v, sc, queue, dt, accel, steer, h, h0, h1, thr, st.
  split.
  { eapply untouched_trans; [|exact U1]. repeat split. }
  split; [exact O1|].
  split; [exact E0|]. split; [exact E1|].
  split; [exact P|]. split; reflexivity.
Qed.


(** X13: after every pass of the control loop that completes, the steering
    angle of the recorded command lies in [-0.37, 0.37] and that command
    is the last of the queue. *)
Theorem control_pass_steer_within_limits (l l' : ctl_locals)
    (c c' : controller Quaternion) :
  control_pass np_cos np_sin np_tan euler_yaw get_rostime get_policy
    get_policy_by_state pwm_convert l c = (Ok l', c') ->
  - 0.37 <= u_steer (prev_u l') /\ u_steer (prev_u l') <= 0.37
  /\ exists queue, u_queue l' = queue ++ [prev_u l'].
Proof.
  intros H. apply control_pass_Ok_inv in H.
  destruct H as (t & sc & q & dt & a & s & c1 & c2 & c3 & thr & st
                 & _ & _ & _ & Hc & _ & _ & ->).
  cbn [prev_u u_steer u_queue].
  apply command_steer_clipped in Hc. destruct Hc as [Hlo Hhi].
  split; [exact Hlo|]. split; [exact Hhi|]. exists q. reflexivity.
Qed.

(** X14: with no policy in the buffer, a pass of the control loop records
    the command accel = -5, steer = 0, and in simulation it publishes
    exactly these two values. *)
Theorem control_pass_brakes_without_policy (l l' : ctl_locals)
    (c c' : controller Quaternion) :
  fst (readFromRT (c_policy_buffer c)) = None ->
  control_pass np_cos np_sin np_tan euler_yaw get_rostime get_policy
    get_policy_by_state pwm_convert l c = (Ok l', c') ->
  u_accel (prev_u l') = - (5) /\ u_steer (prev_u l') = 0
  /\ (simulation c = true ->
      exists t, published c'
                = published c ++ [{| header_stamp := t; throttle := - (5);
                                     servo_steer := 0 |}]).
Proof.
  intros Hp H. cbn [readFromRT fst] in Hp. apply control_pass_Ok_inv in H.
  destruct H as (t & sc & q & dt & a & s & c1 & c2 & c3 & thr & st
                 & U1 & _ & Hs & Hc & Hpwm & -> & ->).
  rewrite Hp, command_without_policy in Hc. injection Hc as <- <- <-.
  apply predict_state_untouched in Hs.
  destruct (untouched_trans U1 Hs) as (Us & _ & Up & _).
  cbn [prev_u u_accel u_steer]. split; [reflexivity|]. split; [reflexivity|].
  intros Hsim. rewrite Us, Hsim in Hpwm. destruct Hpwm as [-> ->].
  exists (get_rostime (c_ticks c2)). cbn [set_outputs published].
  rewrite Up. reflexivity.
Qed.

(** X15: when the policy gives no reference (a time beyond its horizon), a
    pass of the control loop resets the policy buffer, logs the warning
    and records the stopping command accel = -5, steer = 0. *)
Theorem control_pass_resets_policy_beyond_horizon (l l' : ctl_locals)
    (c c' : controller Quaternion) (pol : Policy) :
  fst (readFromRT (c_policy_buffer c)) = Some pol ->
  (forall t, get_policy pol t = Ok None) ->
  (forall x, get_policy_by_state pol x = Ok None) ->
  control_pass np_cos np_sin np_tan euler_yaw get_rostime get_policy
    get_policy_by_state pwm_convert l c = (Ok l', c') ->
  (exists b, c_policy_buffer c' = reset b)
  /\ u_accel (prev_u l') = - (5) /\ u_steer (prev_u l') = 0
  /\ In (LogWarn "Try to retrieve a policy beyond the horizon! Reset the policy buffer!")
       (c_log c').
Proof.
  intros Hp Ht Hx H. cbn [readFromRT fst] in Hp.
  apply control_pass_Ok_inv in H.
  destruct H as (t & sc & q & dt & a & s & c1 & c2 & c3 & thr & st
                 & U1 & _ & Hs & Hc & Hpwm & -> & ->).
  rewrite Hp in Hc. unfold command_from_policy in Hc. rewrite bindM_get in Hc.
  assert (Ha : (if receding_horizon c2 then get_policy pol t
                else get_policy_by_state pol sc) = Ok None)
    by (destruct (receding_horizon c2); [apply Ht | apply Hx]).
  rewrite Ha in Hc. cbn in Hc. injection Hc as <- <- <-.
  cbn [set_outputs set_policy_buffer c_policy_buffer c_log prev_u u_accel
       u_steer].
  split; [eexists; reflexivity|]. split; [reflexivity|]. split; [reflexivity|].
  apply in_or_app. right. left. reflexivity.
Qed.


Lemma drop_old_all (t_slam : Q) (u : Command) (queue : list Command) :
  Forall (fun c => Np.ltb (u_t c) t_slam = true) queue ->
  exists u', drop_old t_slam u queue = (u', []).
Proof.
  revert u. induction queue as [|c q IH]; intros u H; [exists u; reflexivity|].
  inversion H as [|? ? Hc Hq]; subst. cbn [drop_old]. rewrite Hc.
  apply IH, Hq.
Qed.

Lemma predict_state_drained (l : ctl_locals) (t_act : Q)
    (c : controller Quaternion) (msg : OdometryMsg Quaternion) :
  new_data_available (c_control_state_buffer c) = true ->
  stored (c_control_state_buffer c) = Some msg ->
  dt_local l = None ->
  Forall (fun u => Np.ltb (u_t u) (stamp msg) = true) (u_queue l) ->
  exists sc c2,
    predict_state np_cos np_sin np_tan euler_yaw l t_act c
    = (Ok (Some sc, [], None), c2).
Proof.
  intros Hnew Hmsg Hdt Hq. unfold predict_state.
  rewrite bindM_get, Hnew. unfold bindM at 1. cbn [readFromRT].
  rewrite Hmsg.
  destruct (drop_old_all (stamp msg) {| u_accel := 0; u_steer := 0; u_t := stamp msg |} Hq)
    as [u' ->].
  cbn [replay]. rewrite Hdt.
  eexists. eexists. reflexivity.
Qed.

Lemma command_unbound_dt (pol : Policy) (l : ctl_locals) (sc : State) (t : Q)
    (c : controller Quaternion) (state_ref u_ref K : ndarray) :
  (forall t, get_policy pol t = Ok (Some (state_ref, u_ref, K))) ->
  (forall x, get_policy_by_state pol x = Ok (Some (state_ref, u_ref, K))) ->
  (forall x, returns (compute_control (state_array x) state_ref u_ref K) = true) ->
  command_from_policy get_policy get_policy_by_state (Some pol) l (Some sc)
    None t c
  = (Raise UnboundLocalError, c).
Proof.
  intros Ht Hx Hcc. unfold command_from_policy. rewrite bindM_get.
  replace (if receding_horizon c then get_policy pol t
           else get_policy_by_state pol (Some sc))
    with (Ok (Some (state_ref, u_ref, K))
          : result (option (ndarray * ndarray * ndarray)))
    by (destruct (receding_horizon c); [rewrite Ht | rewrite Hx]; reflexivity).
  specialize (Hcc sc).
  destruct (compute_control (state_array sc) state_ref u_ref K)
    as [[accel steer_rate]| |] eqn:Ec; try discriminate.
  unfold bindM, lift. rewrite Ec. reflexivity.
Qed.

(** X16: in simulation, when dt has not been bound yet, a new odometry
    sample is newer than every queued command and the policy gives a
    reference, the pass raises UnboundLocalError at line 409: the loop
    of lines 379-383 that binds dt runs over an empty queue. *)
Theorem control_pass_first_sample_unbound_dt (l : ctl_locals)
    (c : controller Quaternion) (pol : Policy) (msg : OdometryMsg Quaternion)
    (state_ref u_ref K : ndarray) :
  simulation c = true ->
  fst (readFromRT (c_policy_buffer c)) = Some pol ->
  new_data_available (c_control_state_buffer c) = true ->
  fst (readFromRT (c_control_state_buffer c)) = Some msg ->
  dt_local l = None ->
  Forall (fun u => Np.ltb (u_t u) (stamp msg) = true) (u_queue l) ->
  (forall t, get_policy pol t = Ok (Some (state_ref, u_ref, K))) ->
  (forall x, get_policy_by_state pol x = Ok (Some (state_ref, u_ref, K))) ->
  (forall x, returns (compute_control (state_array x) state_ref u_ref K) = true) ->
  fst (control_pass np_cos np_sin np_tan euler_yaw get_rostime get_policy
    get_policy_by_state pwm_convert l c) = Raise UnboundLocalError.
Proof.
  intros Hsim Hp Hnew Hmsg Hdt Hq Ht Hx Hcc.
  cbn [readFromRT fst] in Hp, Hmsg.
  unfold control_pass.
  erewrite bindM_step by reflexivity.
  erewrite bindM_step
    by (unfold acting_time; rewrite bindM_get; cbn [simulation set_policy_buffer];
        rewrite Hsim; reflexivity).
  match goal with
  | |- context [predict_state _ _ _ _ l ?t] =>
      destruct (@predict_state_drained l t
                  (set_outputs (published c) (c_log c) (S (c_ticks c))
                     (set_policy_buffer
                        (snd (readFromRT (c_policy_buffer c))) c))
                  msg Hnew Hmsg Hdt Hq) as (sc & c2 & E)
  end.
  erewrite bindM_step by exact E.
  cbv beta iota. cbn [readFromRT fst snd]. rewrite Hp.
  erewrite bindM_raise; [reflexivity|].
  eapply command_unbound_dt; eassumption.
Qed.


Lemma control_pass_without_sample (l l' : ctl_locals)
    (c c' : controller Quaternion) :
  new_data_available (c_control_state_buffer c) = false ->
  control_pass np_cos np_sin np_tan euler_yaw get_rostime get_policy
    get_policy_by_state pwm_convert l c = (Ok l', c') ->
  new_data_available (c_control_state_buffer c') = false
  /\ length (u_queue l') = S (length (u_queue l)).
Proof.
  intros Hnew H. apply control_pass_Ok_inv in H.
  destruct H as (t & sc & q & dt & a & s & c1 & c2 & c3 & thr & st
                 & _ & O1 & Hs & Hc & _ & -> & ->).
  rewrite <- O1 in Hnew.
  destruct (predict_state_without_sample _ _ _ Hnew Hs) as [-> ->].
  apply command_keeps_odometry in Hc.
  cbn [set_outputs c_control_state_buffer u_queue]. rewrite Hc.
  split; [exact Hnew|]. rewrite length_app. cbn. lia.
Qed.

(** X17: while no new odometry sample arrives, every pass of the control
    loop adds one command to the queue and removes none: after k passes
    it is k longer. *)
Theorem control_queue_grows_without_odometry (k : nat) (l l' : ctl_locals)
    (c c' : controller Quaternion) :
  new_data_available (c_control_state_buffer c) = false ->
  control_passes np_cos np_sin np_tan euler_yaw get_rostime get_policy
    get_policy_by_state pwm_convert k l c = (Ok l', c') ->
  length (u_queue l') = (length (u_queue l) + k)%nat.
Proof.
  revert l c. induction k as [|k IH]; intros l c Hnew H.
  - cbn in H. injection H as <- _. lia.
  - cbn [control_passes] in H. inv_bindM H.
    eapply control_pass_without_sample in E; [|exact Hnew].
    destruct E as [Hnew' Hlen].
    rewrite (IH _ _ Hnew' H), Hlen. lia.
Qed.

Lemma last_nonempty {A : Type} (x : A) (l : list A) (d d' : A) :
  last (x :: l) d = last (x :: l) d'.
Proof.
  revert x. induction l as [|y l IH]; intros x; [reflexivity|].
  change (last (y :: l) d = last (y :: l) d'). apply IH.
Qed.

(** X18: lines 361-362 remove from the front of the queue exactly a run of
    commands older than the sample: the command kept is the last one
    removed (or the initial one), and the first command left, if any, is
    not older than the sample. *)
Theorem drop_old_splits_queue (t_slam : Q) (u : Command) (queue : list Command) :
  exists dropped,
    queue = dropped ++ snd (drop_old t_slam u queue)
    /\ Forall (fun c => u_t c < t_slam) dropped
    /\ fst (drop_old t_slam u queue) = last dropped u
    /\ match snd (drop_old t_slam u queue) with
       | c :: _ => t_slam <= u_t c
       | [] => True
       end.
Proof.
  revert u. induction queue as [|c q IH]; intros u.
  - exists []. repeat split. constructor.
  - cbn [drop_old]. destruct (Np.ltb (u_t c) t_slam) eqn:E.
    + destruct (IH c) as (d & Hq & Hold & Hu & Hhead).
      exists (c :: d). split; [cbn; f_equal; exact Hq|].
      split; [constructor; [apply ltb_true, E | exact Hold]|].
      split; [|exact Hhead].
      rewrite Hu. destruct d as [|c0 d]; [reflexivity|].
      change (last (c :: c0 :: d) u) with (last (c0 :: d) u).
      apply last_nonempty.
    + exists []. split; [reflexivity|]. split; [constructor|].
      split; [reflexivity|]. apply ltb_false, E.
Qed.

End ThreadFacts.

Lemma control_pass_steer_within_limits_witness :
  exists l' c',
    control_pass cos_0 sin_0 tan_0 yaw_of rostime_10ms steering
      steering_by_state no_pwm steering_locals car_with_policy = (Ok l', c')
    /\ py_min 0.37 (Qred (u_steer (prev_u steering_locals) + 2 * (1 # 10)))
       = 0.37
    /\ u_steer (prev_u l') = 0.37
    /\ - 0.37 <= u_steer (prev_u l') /\ u_steer (prev_u l') <= 0.37
    /\ exists queue, u_queue l' = queue ++ [prev_u l'].
Proof.
  destruct (control_pass cos_0 sin_0 tan_0 yaw_of rostime_10ms steering
              steering_by_state no_pwm steering_locals car_with_policy)
    as [[l'| |] c'] eqn:E; try (vm_compute in E; discriminate).
  exists l', c'. split; [reflexivity|].
  split; [vm_compute; reflexivity|].
  split.
  { assert (E2 := E). vm_compute in E2. injection E2 as <- _. reflexivity. }
  exact (@control_pass_steer_within_limits Q cos_0 sin_0 tan_0 yaw_of
           rostime_10ms steering steering_by_state no_pwm steering_locals l'
           car_with_policy c' E).
Defined.

Lemma control_pass_brakes_without_policy_witness :
  fst (readFromRT (c_policy_buffer car)) = None
  /\ exists l' c',
       control_pass cos_0 sin_0 tan_0 yaw_of rostime_10ms at_rest
         at_rest_by_state no_pwm ctl_start car = (Ok l', c')
       /\ u_accel (prev_u l') = - (5) /\ u_steer (prev_u l') = 0
       /\ (simulation car = true ->
           exists t, published c'
                     = published car
                       ++ [{| header_stamp := t; throttle := - (5);
                              servo_steer := 0 |}]).
Proof.
  split; [reflexivity|].
  destruct (control_pass cos_0 sin_0 tan_0 yaw_of rostime_10ms at_rest
              at_rest_by_state no_pwm ctl_start car) as [[l'| |] c'] eqn:E;
    try (vm_compute in E; discriminate).
  exists l', c'. split; [reflexivity|].
  exact (@control_pass_brakes_without_policy Q cos_0 sin_0 tan_0 yaw_of
           rostime_10ms at_rest at_rest_by_state no_pwm ctl_start l' car c'
           eq_refl E).
Defined.

Lemma control_pass_resets_policy_beyond_horizon_witness :
  fst (readFromRT (c_policy_buffer car_with_policy)) = Some some_policy
  /\ exists l' c',
       control_pass cos_0 sin_0 tan_0 yaw_of rostime_10ms beyond_horizon
         beyond_horizon_by_state no_pwm ctl_start car_with_policy
       = (Ok l', c')
       /\ (exists b, c_policy_buffer c' = reset b)
       /\ u_accel (prev_u l') = - (5) /\ u_steer (prev_u l') = 0
       /\ In (LogWarn "Try to retrieve a policy beyond the horizon! Reset the policy buffer!")
            (c_log c').
Proof.
  split; [reflexivity|].
  destruct (control_pass cos_0 sin_0 tan_0 yaw_of rostime_10ms beyond_horizon
              beyond_horizon_by_state no_pwm ctl_start car_with_policy)
    as [[l'| |] c'] eqn:E; try (vm_compute in E; discriminate).
  exists l', c'. split; [reflexivity|].
  exact (@control_pass_resets_policy_beyond_horizon Q cos_0 sin_0 tan_0 yaw_of
           rostime_10ms beyond_horizon beyond_horizon_by_state no_pwm
           ctl_start l' car_with_policy c' some_policy eq_refl
           (fun _ => eq_refl) (fun _ => eq_refl) E).
Defined.

Lemma control_pass_first_sample_unbound_dt_witness :
  simulation car_with_policy_and_sample = true
  /\ fst (readFromRT (c_policy_buffer car_with_policy_and_sample))
     = Some some_policy
  /\ new_data_available (c_control_state_buffer car_with_policy_and_sample)
     = true
  /\ dt_local ctl_start = None
  /\ fst (control_pass cos_0 sin_0 tan_0 yaw_of rostime_10ms at_rest
            at_rest_by_state no_pwm ctl_start car_with_policy_and_sample)
     = Raise UnboundLocalError.
Proof.
  split; [reflexivity|]. split; [reflexivity|]. split; [reflexivity|].
  split; [reflexivity|].
  eapply (@control_pass_first_sample_unbound_dt Q cos_0 sin_0 tan_0 yaw_of
            rostime_10ms at_rest at_rest_by_state no_pwm ctl_start
            car_with_policy_and_sample some_policy first_sample
            (state_with_heading 0) zero_control heading_gain);
    first [reflexivity | constructor].
Defined.

Lemma control_queue_grows_without_odometry_witness :
  new_data_available (c_control_state_buffer car) = false
  /\ exists l' c',
       control_passes cos_0 sin_0 tan_0 yaw_of rostime_10ms at_rest
         at_rest_by_state no_pwm 3 ctl_start car = (Ok l', c')
       /\ length (u_queue l') = (length (u_queue ctl_start) + 3)%nat.
Proof.
  split; [reflexivity|].
  destruct (control_passes cos_0 sin_0 tan_0 yaw_of rostime_10ms at_rest
              at_rest_by_state no_pwm 3 ctl_start car)
    as [[l'| |] c'] eqn:E; try (vm_compute in E; discriminate).
  exists l', c'. split; [reflexivity|].
  exact (@control_queue_grows_without_odometry Q cos_0 sin_0 tan_0 yaw_of
           rostime_10ms at_rest at_rest_by_state no_pwm 3 ctl_start l' car c'
           eq_refl E).
Defined.

Section PathFacts.

Variable plan_client : Q * Q -> Q * Q -> result (list Waypoint).
Variable make_ref_path :
  ndarray -> list Q -> list Q -> list Q -> bool -> result RefPath.

Lemma add_leg_Ok_inv (g : Z) (start p : Q * Q) (n n' : node) :
  add_leg plan_client make_ref_path g start n = (Ok p, n') ->
  lookup (goal_locations n) g = Ok p
  /\ exists rp, routed plan_client make_ref_path (start, p) rp
       /\ n' = with_total_path (total_path n ++ [rp])
                 (with_seen (seen n ++ [LogInfo "x goal, y goal"])
                    (clock_ticks n) n).
Proof.
  unfold add_leg. rewrite bindM_get. intros H.
  inv_bindM H. destruct v as [x y]. unfold lift in E. injection E as E <-.
  inv_bindM H. unfold note, modify in E0. injection E0 as _ <-.
  inv_bindM H. unfold lift in E0. injection E0 as E0 <-.
  inv_bindM H. unfold lift in E1. injection E1 as E1 <-.
  inv_bindM H. unfold modify in E2. injection E2 as _ <-.
  unfold ret in H. injection H as <- <-.
  split; [exact E|]. exists v1. split; [|reflexivity].
  exists v0. split; assumption.
Qed.

Lemma legs_Ok_inv (goals : list Z) (start p : Q * Q) (n n' : node) :
  for_each goals (add_leg plan_client make_ref_path) start n = (Ok p, n') ->
  exists legs,
    Forall2 (routed plan_client make_ref_path) (leg_requests start (goal_locations n) goals) legs
    /\ length legs = length goals
    /\ total_path n' = total_path n ++ legs
    /\ goal_locations n' = goal_locations n
    /\ goal_path n' = goal_path n
    /\ path_buffer n' = path_buffer n
    /\ Forall (fun g => returns (lookup (goal_locations n) g) = true) goals.
Proof.
  revert start n. induction goals as [|g gs IH]; intros start n H.
  - cbn in H. injection H as _ <-. exists []. rewrite app_nil_r.
    repeat split; constructor.
  - cbn [for_each] in H. inv_bindM H.
    apply add_leg_Ok_inv in E. destruct E as (Hl & rp & Hr & ->).
    apply IH in H. cbn [goal_locations with_total_path with_seen total_path
                        goal_path path_buffer] in H.
    destruct H as (legs & HF & Hlen & Ht & Hg & Hgp & Hb & Hall).
    exists (rp :: legs). cbn [leg_requests]. rewrite Hl.
    split; [constructor; assumption|].
    split; [cbn; congruence|].
    split; [rewrite Ht, <- app_assoc; reflexivity|].
    repeat split; try assumption.
    constructor; [rewrite Hl; reflexivity | exact Hall].
Qed.

(** X19: when [setup_path] returns, it has appended one leg per entry of
    goal_path to total_path, the first routed from the fixed start (2.0,
    0.15) to the first goal and each next one from the previous goal to
    the next goal of the table of line 227. *)
Theorem setup_path_chains_legs (n n' : node) :
  setup_path plan_client make_ref_path n = (Ok tt, n') ->
  exists legs,
    Forall2 (routed plan_client make_ref_path) (leg_requests (2, 0.15) goal_table (goal_path n)) legs
    /\ length legs = length (goal_path n)
    /\ total_path n' = total_path n ++ legs.
Proof.
  unfold setup_path. intros H.
  inv_bindM H. unfold note, modify in E. injection E as _ <-.
  inv_bindM H. unfold modify in E. injection E as _ <-.
  rewrite bindM_get in H. inv_bindM H.
  apply legs_Ok_inv in E.
  cbn [goal_locations with_goal_locations with_seen total_path goal_path] in E.
  destruct E as (legs & HF & Hlen & Ht & _).
  rewrite bindM_get in H.
  exists legs. split; [exact HF|]. split; [exact Hlen|].
  match type of H with
  | context [nth_error (total_path ?m) 0] => destruct (nth_error (total_path m) 0)
  end.
  - inv_bindM H. unfold modify in E. injection E as _ <-.
    unfold note, modify in H. injection H as <-. exact Ht.
  - unfold note, modify in H. injection H as <-. exact Ht.
Qed.

(** X20: when [setup_path] returns, the goal table is that of line 227 and
    the path buffer holds the first entry of total_path; only when
    total_path is empty (no goals and no earlier legs) the buffer is
    left alone and the warning is logged. *)
Theorem setup_path_hands_over_first_leg (n n' : node) :
  setup_path plan_client make_ref_path n = (Ok tt, n') ->
  goal_locations n' = goal_table
  /\ match total_path n' with
     | first_leg :: _ =>
         path_buffer n' = writeFromNonRT first_leg (path_buffer n)
     | [] =>
         path_buffer n' = path_buffer n
         /\ goal_path n = []
         /\ In (LogWarn "Invalid path received! Move your robot and retry!")
              (seen n')
     end.
Proof.
  unfold setup_path. intros H.
  inv_bindM H. unfold note, modify in E. injection E as _ <-.
  inv_bindM H. unfold modify in E. injection E as _ <-.
  rewrite bindM_get in H. inv_bindM H.
  apply legs_Ok_inv in E.
  cbn [goal_locations with_goal_locations with_seen total_path goal_path
       path_buffer] in E.
  destruct E as (legs & _ & Hlen & Ht & Hg & _ & Hb & _).
  rewrite bindM_get in H.
  match type of H with
  | context [nth_error (total_path ?m) 0] =>
      destruct (total_path m) as [|rp rest] eqn:Htp
  end; cbn [nth_error] in H.
  - unfold note, modify in H. injection H as <-.
    cbn [goal_locations with_seen total_path path_buffer seen].
    rewrite Htp. split; [exact Hg|]. split; [exact Hb|].
    split.
    + symmetry in Ht. apply app_eq_nil in Ht. destruct Ht as [_ ->].
      destruct (goal_path n); [reflexivity|discriminate].
    + apply in_or_app. right. left. reflexivity.
  - inv_bindM H. unfold modify in E. injection E as _ <-.
    unfold note, modify in H. injection H as <-.
    cbn [goal_locations with_seen with_path_buffer total_path path_buffer].
    rewrite Htp, Hb. split; [exact Hg|reflexivity].
Qed.

(** X21: if goal_path contains an identifier that the table of line 227 does
    not list, [setup_path] does not return. *)
Theorem setup_path_rejects_unknown_goal (n : node) (g : Z) :
  In g (goal_path n) ->
  lookup goal_table g = Raise KeyError ->
  returns (fst (setup_path plan_client make_ref_path n)) = false.
Proof.
  intros Hin Hg.
  destruct (setup_path plan_client make_ref_path n) as [[[]| |] n'] eqn:H;
    try reflexivity.
  exfalso. unfold setup_path in H.
  inv_bindM H. unfold note, modify in E. injection E as _ <-.
  inv_bindM H. unfold modify in E. injection E as _ <-.
  rewrite bindM_get in H. inv_bindM H.
  apply legs_Ok_inv in E.
  cbn [goal_locations with_goal_locations with_seen total_path goal_path] in E.
  destruct E as (legs & _ & _ & _ & _ & _ & _ & Hall).
  rewrite Forall_forall in Hall. specialize (Hall g Hin).
  rewrite Hg in Hall. discriminate.
Qed.

End PathFacts.

Lemma setup_path_chains_legs_witness :
  exists n',
    setup_path straight_route any_ref_path node_without_path = (Ok tt, n')
    /\ exists legs,
         Forall2 (routed straight_route any_ref_path)
           (leg_requests (2, 0.15) goal_table (goal_path node_without_path))
           legs
         /\ length legs = length (goal_path node_without_path)
         /\ total_path n' = total_path node_without_path ++ legs.
Proof.
  destruct (setup_path straight_route any_ref_path node_without_path)
    as [[[]| |] n'] eqn:E; try (vm_compute in E; discriminate).
  exists n'. split; [reflexivity|].
  exact (@setup_path_chains_legs straight_route any_ref_path
           node_without_path n' E).
Defined.

Lemma setup_path_hands_over_first_leg_witness :
  exists n',
    setup_path straight_route any_ref_path node_without_path = (Ok tt, n')
    /\ goal_locations n' = goal_table
    /\ match total_path n' with
       | first_leg :: _ =>
           path_buffer n'
           = writeFromNonRT first_leg (path_buffer node_without_path)
       | [] =>
           path_buffer n' = path_buffer node_without_path
           /\ goal_path node_without_path = []
           /\ In (LogWarn "Invalid path received! Move your robot and retry!")
                (seen n')
       end.
Proof.
  destruct (setup_path straight_route any_ref_path node_without_path)
    as [[[]| |] n'] eqn:E; try (vm_compute in E; discriminate).
  exists n'. split; [reflexivity|].
  exact (@setup_path_hands_over_first_leg straight_route any_ref_path
           node_without_path n' E).
Defined.

Lemma setup_path_rejects_unknown_goal_witness :
  In 13%Z (goal_path node_with_goal_13)
  /\ lookup goal_table 13 = Raise KeyError
  /\ returns (fst (setup_path straight_route any_ref_path node_with_goal_13))
     = false.
Proof.
  assert (Hin : In 13%Z (goal_path node_with_goal_13))
    by (right; left; reflexivity).
  split; [exact Hin|]. split; [reflexivity|].
  exact (@setup_path_rejects_unknown_goal straight_route any_ref_path
           node_with_goal_13 13%Z Hin eq_refl).
Defined.

(** *** The warm-up run *)

Lemma keeps_bind {A B : Type} (c : M heap A) (k : A -> M heap B) :
  keeps_self c -> (forall a, keeps_self (k a)) -> keeps_self (bindM c k).
Proof.
  unfold keeps_self, bindM. intros Hc Hk h. specialize (Hc h).
  destruct (c h) as [[a|e|] h1]; cbn [snd] in *; [rewrite Hk|..]; exact Hc.
Qed.

Lemma keeps_get_bind {B : Type} (k : heap -> M heap B) :
  (forall h0, keeps_self (k h0)) -> keeps_self (bindM get k).
Proof. intros Hk h. rewrite bindM_get. apply Hk. Qed.

Lemma keeps_ret {A : Type} (a : A) : keeps_self (ret a).
Proof. intros h. reflexivity. Qed.

Lemma keeps_lift {A : Type} (r : result A) : keeps_self (lift r).
Proof. intros h. reflexivity. Qed.

Lemma keeps_emit (e : event) : keeps_self (emit e).
Proof. intros h. reflexivity. Qed.

Lemma keeps_now (time_time : nat -> Q) : keeps_self (now time_time).
Proof. intros h. reflexivity. Qed.

Lemma keeps_call {A : Type} (callee : string) (args : list ndarray)
    (answer : result A) : keeps_self (call callee args answer).
Proof. intros h. reflexivity. Qed.

Lemma keeps_get_references (trajectory : ndarray) :
  keeps_self (get_references trajectory).
Proof.
  unfold get_references. apply keeps_get_bind; intros h0.
  apply keeps_bind.
  { destruct (ref_path (self h0)); [|apply keeps_lift].
    apply keeps_bind; [apply keeps_lift|intros xy]. apply keeps_call. }
  intros p. apply keeps_bind; [apply keeps_call|intros o]. apply keeps_ret.
Qed.

Lemma keeps_plan (time_time : nat -> Q) (fuel : nat) (init_state : ndarray)
    (controls : option ndarray) :
  keeps_self (plan time_time fuel init_state controls).
Proof.
  unfold plan. apply keeps_get_bind; intros h0.
  destruct (ref_path (self h0)).
  - apply keeps_bind.
    { destruct controls; [|apply keeps_ret].
      apply keeps_bind; [apply keeps_lift|intros k].
      destruct (k =? T (self h0))%nat; [apply keeps_ret|apply keeps_lift]. }
    intros c. apply keeps_bind; [apply keeps_now|intros t].
    apply keeps_bind; [apply keeps_call|intros [tr u]].
    apply keeps_bind; [apply keeps_get_references|intros [p o]].
    apply keeps_bind; [apply keeps_call|intros J].
    apply keeps_bind; [apply keeps_lift|intros m].
    apply keeps_bind.
    { intros h. rewrite plan_loop.
      destruct (Np.ltb J (tol (self h0)) && Np.ltb (- tol (self h0)) J);
        reflexivity. }
    intros [[tr' u'] lam]. apply keeps_bind; [apply keeps_now|intros t'].
    apply keeps_ret.
  - apply keeps_bind; [apply keeps_emit|intros _]. apply keeps_ret.
Qed.

(** X22: when [warm_up] returns, the planner is as before except that it has
    no reference path and no obstacles, also when it had some before;
    every [plan] that follows returns the status -1 until a reference
    path is set. *)
Theorem warm_up_leaves_no_reference (time_time : nat -> Q)
    (circle : result RefPath) (fuel : nat) (h h' : heap) :
  warm_up time_time circle fuel h = (Ok tt, h') ->
  self h' = set_obstacle_list [] (set_ref_path None (self h))
  /\ forall fuel' init_state controls,
       fst (plan time_time fuel' init_state controls h')
       = Ok [("status"%string, PyInt (-1))].
Proof.
  intros H. unfold warm_up in H.
  inv_bindM H. unfold lift in E. injection E as E <-.
  inv_bindM H. unfold set_self, modify in E0. injection E0 as _ <-.
  rewrite bindM_get in H.
  inv_bindM H. unfold update_obstacles, set_self, modify in E0.
  injection E0 as _ <-.
  inv_bindM H. unfold emit, modify in E0. injection E0 as _ <-.
  inv_bindM H. pose proof (keeps_plan time_time fuel x_init None) as Hk.
  match type of E0 with ?c ?x = _ => specialize (Hk x); rewrite E0 in Hk end.
  cbn [snd self] in Hk.
  inv_bindM H. unfold emit, modify in E1. injection E1 as _ <-.
  inv_bindM H. unfold set_self, modify in E1. injection E1 as _ <-.
  unfold set_self, modify in H. injection H as <-.
  cbn [self]. rewrite Hk.
  split; [reflexivity|].
  intros fuel' x0 c. reflexivity.
Qed.

Lemma warm_up_leaves_no_reference_witness :
  exists h',
    warm_up clock (Ok echo_path) 5 (fresh (toy_ilqr 5 2 5 1 None))
    = (Ok tt, h')
    /\ self h'
       = set_obstacle_list []
           (set_ref_path None (self (fresh (toy_ilqr 5 2 5 1 None))))
    /\ forall fuel' init_state controls,
         fst (plan clock fuel' init_state controls h')
         = Ok [("status"%string, PyInt (-1))].
Proof.
  destruct (warm_up clock (Ok echo_path) 5 (fresh (toy_ilqr 5 2 5 1 None)))
    as [[[]| |] h'] eqn:E; try (vm_compute in E; discriminate).
  exists h'. split; [reflexivity|].
  exact (@warm_up_leaves_no_reference clock (Ok echo_path) 5
           (fresh (toy_ilqr 5 2 5 1 None)) h' E).
Defined.

